(** * approx_post: the loss evaluators of [approx_post/losses.py]

    The development has two parts.

    - [Py], [Loss], [ReverseKL], [ForwardKL]: the classes of the file as they
      are written: attribute lookup through the class hierarchy, binding of
      call arguments against the signatures of the [def]s, exceptions, and the
      log of the operations invoked on the collaborators (the approximating
      distribution, the joint distribution, arrays handed in by the caller).
      What the collaborators and numpy compute is left to a [world].

    - [Numeric], [Covariance]: the array arithmetic of the reductions, at the
      shapes the comments of the source document, with numpy's floating point
      numbers idealised as real numbers. An equality proved there is an
      equality of real numbers: rounding, overflow and the non-finite values
      of float64 are not modelled, and the statements that depend on them say
      that they hold in exact arithmetic.

    The header of [ForwardKL._compute_importance_samples] (line 191) lacks its
    closing colon, so Python refuses the file as it stands; the [def]s are
    embedded as they read with that colon in place. *)

From Stdlib Require Import List String Ascii Bool ZArith Arith Lia.
From Stdlib Require Import Reals Lra.
Import ListNotations.
Open Scope string_scope.
Open Scope list_scope.

(** ** Python values, exceptions and the evaluation monad *)

Module Py.

Inductive class := C_Loss | C_ReverseKL | C_ForwardKL.

(** Objects that are not built by this file (distributions, arrays, callables
    of the caller) are referred to by name; a [world] says what they do. *)
#[local] Unset Elimination Schemes.
Inductive value :=
| VNone
| VBool (b : bool)
| VInt (n : Z)
| VStr (s : string)
| VTuple (vs : list value)
| VDict (kvs : list (string * value))
| VObj (id : string)
| VInst (c : class) (dict : list (string * value)).
#[local] Set Elimination Schemes.

Inductive exn :=
| AttributeError (attr : string)
| NameError (name : string)
| UnboundLocalError (name : string)
| TypeError (msg : string)
| ValueError (msg : string)
| KeyError (key : string)
| Raised (what : string).

Definition result (A : Type) : Type := (exn + A)%type.

(** The operations the source invokes on collaborator objects. *)
Inductive cop :=
| c_phi | c_phi_del_params
| c_sample | c_sample_base | c_transform | c_transform_del_2
| c_logprob | c_logprob_del_1 | c_logprob_del_2
| c_logprob_del_1_components | c_logprob_del_2_components
| c_logpdf | c_logpdf_del_2 | c_lp_del_2 | c_coefficients
| c_flatten | c_reshape | c_lower.

Definition cop_name (op : cop) : string :=
  match op with
  | c_phi => "phi" | c_phi_del_params => "phi_del_params"
  | c_sample => "sample" | c_sample_base => "sample_base"
  | c_transform => "transform" | c_transform_del_2 => "transform_del_2"
  | c_logprob => "logprob" | c_logprob_del_1 => "logprob_del_1"
  | c_logprob_del_2 => "logprob_del_2"
  | c_logprob_del_1_components => "logprob_del_1_components"
  | c_logprob_del_2_components => "logprob_del_2_components"
  | c_logpdf => "logpdf" | c_logpdf_del_2 => "logpdf_del_2"
  | c_lp_del_2 => "lp_del_2" | c_coefficients => "coefficients"
  | c_flatten => "flatten" | c_reshape => "reshape" | c_lower => "lower"
  end.

Definition all_cops : list cop :=
  [c_phi; c_phi_del_params; c_sample; c_sample_base; c_transform;
   c_transform_del_2; c_logprob; c_logprob_del_1; c_logprob_del_2;
   c_logprob_del_1_components; c_logprob_del_2_components; c_logpdf;
   c_logpdf_del_2; c_lp_del_2; c_coefficients; c_flatten; c_reshape; c_lower].

(** The operations that draw samples. *)
Definition is_sampling (name : string) : bool :=
  (name =? "sample") || (name =? "sample_base").

(** One entry per operation invoked on a collaborator. *)
Record call := Call { receiver : string; operation : string; arguments : list value }.

Definition log := list call.

Definition M (A : Type) : Type := log -> result A * log.

Definition ret {A} (a : A) : M A := fun l => (inr a, l).
Definition raise {A} (e : exn) : M A := fun l => (inl e, l).
Definition bind {A B} (m : M A) (k : A -> M B) : M B :=
  fun l => match m l with
           | (inl e, l') => (inl e, l')
           | (inr a, l') => k a l'
           end.
Definition lift {A} (r : result A) : M A := fun l => (r, l).
Definition record (c : call) : M unit := fun l => (inr tt, l ++ [c]).

Declare Scope py_scope.
Delimit Scope py_scope with py.
Notation "x <- m ;; k" := (bind m (fun x => k))
  (at level 61, m at next level, right associativity) : py_scope.
Notation "' pat <- m ;; k" := (bind m (fun x => match x with pat => k end))
  (at level 61, pat pattern, m at next level, right associativity) : py_scope.
Notation "m ;;; k" := (bind m (fun _ => k))
  (at level 61, right associativity) : py_scope.

(** What lies outside the file. *)
Record world := World {
  (** [hasattr(obj, name)] for an external object *)
  w_has : string -> string -> bool;
  (** the outcome of [obj.name(args, **kwargs)] *)
  w_call : string -> string -> list value -> list (string * value) -> result value;
  (** the truth value of an external object *)
  w_truth : string -> bool;
  (** numpy functions, by dotted name under [np] *)
  w_np : string -> list value -> list (string * value) -> result value;
  (** the arithmetic operators on arrays and numbers *)
  w_arith : string -> value -> value -> result value
}.

Fixpoint assoc {A} (k : string) (l : list (string * A)) : option A :=
  match l with
  | [] => None
  | (k', v) :: l' => if k =? k' then Some v else assoc k l'
  end.

Definition mem (k : string) (l : list string) : bool :=
  existsb (String.eqb k) l.

Fixpoint update {A} (k : string) (v : A) (l : list (string * A)) : list (string * A) :=
  match l with
  | [] => [(k, v)]
  | (k', v') :: l' => if k =? k' then (k, v) :: l' else (k', v') :: update k v l'
  end.

Definition arg (env : list (string * value)) (name : string) : value :=
  match assoc name env with Some v => v | None => VNone end.

(** *** Signatures and the binding of call arguments *)

Inductive mkind := Plain | Static.

Record signature := Sig { params : list string; defaults : list (string * value) }.

Inductive member :=
| Data (v : value)
| Func (k : mkind) (sg : signature).

Fixpoint bind_positional (ps : list string) (pos : list value)
  : result (list (string * value) * list string) :=
  match pos, ps with
  | [], _ => inr ([], ps)
  | v :: pos', p :: ps' =>
      match bind_positional ps' pos' with
      | inr (env, rest) => inr ((p, v) :: env, rest)
      | inl e => inl e
      end
  | _ :: _, [] => inl (TypeError "too many positional arguments")
  end.

Fixpoint remove_name (k : string) (l : list string) : list string :=
  match l with
  | [] => []
  | k' :: l' => if k =? k' then l' else k' :: remove_name k l'
  end.

Fixpoint bind_keywords (rest : list string) (kw : list (string * value))
  : result (list (string * value) * list string) :=
  match kw with
  | [] => inr ([], rest)
  | (k, v) :: kw' =>
      if mem k rest then
        match bind_keywords (remove_name k rest) kw' with
        | inr (env, rest') => inr ((k, v) :: env, rest')
        | inl e => inl e
        end
      else inl (TypeError (append "unexpected or repeated argument: " k))
  end.

Fixpoint bind_defaults (rest : list string) (ds : list (string * value))
  : result (list (string * value)) :=
  match rest with
  | [] => inr []
  | p :: rest' =>
      match assoc p ds with
      | Some v =>
          match bind_defaults rest' ds with
          | inr env => inr ((p, v) :: env)
          | inl e => inl e
          end
      | None => inl (TypeError (append "missing required argument: " p))
      end
  end.

(** Python's rule for a call: positional arguments fill the parameters in
    order, keywords name parameters not yet filled, defaults fill the rest,
    and a parameter left without a value is a [TypeError]. *)
Definition bind_args (sg : signature) (pos : list value) (kw : list (string * value))
  : result (list (string * value)) :=
  match bind_positional (params sg) pos with
  | inl e => inl e
  | inr (env1, rest1) =>
      match bind_keywords rest1 kw with
      | inl e => inl e
      | inr (env2, rest2) =>
          match bind_defaults rest2 (defaults sg) with
          | inl e => inl e
          | inr env3 => inr (env1 ++ env2 ++ env3)
          end
      end
  end.

(** *** The class hierarchy of the file *)

Definition Loss_members : list (string * member) :=
  [ ("_compute_loss_del_params",
      Func Static (Sig ["loss_del_phi"; "x"; "approxdist"] []));
    ("_apply_controlvariates",
      Func Plain (Sig ["self"; "val"; "cv"; "num_batch"; "num_samples"] []));
    ("_vectorise_controlvariate_input",
      Func Static (Sig ["val"; "new_shape"] []));
    ("_compute_covariance",
      Func Static (Sig ["val_1"; "val_2"; "subtract_mean_from_val_2"]
                       [("subtract_mean_from_val_2", VBool false)]));
    ("_compute_controlvariate_samples",
      Func Static (Sig ["val_vec"; "cov"; "var"] []));
    ("_unvectorise_controlvariate_output",
      Func Static (Sig ["cv_samples"; "val"] []));
    ("_compute_joint_del_phi_reparameterisation",
      Func Plain (Sig ["self"; "x"; "theta"; "transform_del_phi"] []));
    ("_compute_approx_del_phi_reparameterisation",
      Func Static (Sig ["approx"; "phi"; "theta"; "transform_del_phi"; "approx_is_mixture"]
                       [("approx_is_mixture", VBool false)])) ].

Definition _default_num_samples : list (string * value) :=
  [ ("elbo_cv", VInt 1000); ("elbo_reparam", VInt 100);
    ("selbo_reparam", VInt 10); ("selbo_cv", VInt 100) ].

Definition ReverseKL_members : list (string * member) :=
  [ ("_default_num_samples", Data (VDict _default_num_samples));
    ("__init__",
      Func Plain (Sig ["self"; "jointdist"; "use_reparameterisation"; "method"]
                      [("use_reparameterisation", VBool false); ("method", VStr "elbo")]));
    ("eval",
      Func Plain (Sig ["self"; "approx"; "x"; "num_samples"] [("num_samples", VNone)]));
    ("_eval_elbo_reparameterisation",
      Func Plain (Sig ["self"; "approx"; "phi"; "x"; "num_samples"] []));
    ("_eval_elbo_cv",
      Func Plain (Sig ["self"; "approx"; "phi"; "x"; "num_samples"] []));
    ("_eval_selbo_reparameterisation",
      Func Plain (Sig ["approx"; "phi"; "x"; "num_samples"] []));
    ("_eval_selbo_cv", Func Plain (Sig [] [])) ].

Definition ForwardKL_members : list (string * member) :=
  [ ("__init__",
      Func Plain (Sig ["self"; "jointdist"; "posterior_samples"; "use_reparameterisation"]
                      [("jointdist", VNone); ("posterior_samples", VNone);
                       ("use_reparameterisation", VBool false)]));
    ("_compute_importance_samples",
      Func Static (Sig ["samples"; "approx_logprob"; "joint_logprob"] []));
    ("eval",
      Func Plain (Sig ["self"; "approx"; "x"; "num_samples"] [("num_samples", VInt 1000)]));
    ("_eval_posterior_samples",
      Func Plain (Sig ["self"; "approxdist"; "phi"; "x"; "num_samples"] []));
    ("_eval_reparameterisation",
      Func Plain (Sig ["self"; "approx"; "phi"; "x"; "num_samples"] []));
    ("_eval_controlvariates",
      Func Plain (Sig ["self"; "approx"; "phi"; "x"; "num_samples"; "return_grad"] [])) ].

Definition class_members (c : class) : list (string * member) :=
  match c with
  | C_Loss => Loss_members
  | C_ReverseKL => ReverseKL_members
  | C_ForwardKL => ForwardKL_members
  end.

(** Method resolution order, [object] left out. *)
Definition mro (c : class) : list class :=
  match c with
  | C_Loss => [C_Loss]
  | C_ReverseKL => [C_ReverseKL; C_Loss]
  | C_ForwardKL => [C_ForwardKL; C_Loss]
  end.

Fixpoint lookup_in (cs : list class) (name : string) : option member :=
  match cs with
  | [] => None
  | c :: cs' =>
      match assoc name (class_members c) with
      | Some m => Some m
      | None => lookup_in cs' name
      end
  end.

Definition lookup_class (c : class) (name : string) : option member :=
  lookup_in (mro c) name.

(** What every instance inherits from [object]. *)
Definition object_names : list string :=
  [ "__class__"; "__delattr__"; "__dict__"; "__dir__"; "__doc__"; "__eq__";
    "__format__"; "__ge__"; "__getattribute__"; "__getstate__"; "__gt__";
    "__hash__"; "__init__"; "__init_subclass__"; "__le__"; "__lt__";
    "__module__"; "__ne__"; "__new__"; "__reduce__"; "__reduce_ex__";
    "__repr__"; "__setattr__"; "__sizeof__"; "__str__"; "__subclasshook__";
    "__weakref__" ].

Definition class_has (c : class) (name : string) : bool :=
  match lookup_class c name with
  | Some _ => true
  | None => mem name object_names
  end.

(** The names numpy defines, among those the source asks for: numpy has
    [ndim] and no [ndims]. *)
Definition numpy_names : list string :=
  [ "mean"; "einsum"; "sum"; "max"; "exp"; "ndim"; "linalg.solve" ].

Definition lower_ascii (a : ascii) : ascii :=
  let n := nat_of_ascii a in
  if (65 <=? n)%nat && (n <=? 90)%nat then ascii_of_nat (n + 32) else a.

(** [str.lower] on the ASCII letters. *)
Fixpoint lower (s : string) : string :=
  match s with
  | EmptyString => EmptyString
  | String a s' => String (lower_ascii a) (lower s')
  end.

Definition is_None (v : value) : bool :=
  match v with VNone => true | _ => false end.

(** [v == 'literal'] *)
Definition eq_str (v : value) (s : string) : bool :=
  match v with VStr s' => s' =? s | _ => false end.

Section Semantics.

Variable W : world.

Local Open Scope py_scope.

Definition truthy (v : value) : bool :=
  match v with
  | VNone => false
  | VBool b => b
  | VInt n => negb (n =? 0)%Z
  | VStr s => negb (s =? "")
  | VTuple vs => negb (Nat.eqb (List.length vs) 0)
  | VDict kvs => negb (Nat.eqb (List.length kvs) 0)
  | VObj id => w_truth W id
  | VInst _ _ => true
  end.

(** [hasattr(v, name)]; of the builtin types only [str.lower] is looked
    up by the source. *)
Definition hasattr (v : value) (name : string) : bool :=
  match v with
  | VInst c d =>
      match assoc name d with
      | Some _ => true
      | None => class_has c name
      end
  | VObj id => w_has W id name
  | VStr _ => name =? "lower"
  | _ => false
  end.

(** [v.name] read as a value: the instance dictionary first, then the
    classes. A function or an attribute of an external object is handed
    out by reference. *)
Definition getattr (v : value) (name : string) : M value :=
  match v with
  | VInst c d =>
      match assoc name d with
      | Some a => ret a
      | None =>
          match lookup_class c name with
          | Some (Data a) => ret a
          | Some (Func _ _) => ret (VObj (append name " of this module"))
          | None =>
              if mem name object_names then ret (VObj (append "object." name))
              else raise (AttributeError name)
          end
      end
  | VObj id =>
      if w_has W id name then ret (VObj (append id (append "." name)))
      else raise (AttributeError name)
  | _ => raise (AttributeError name)
  end.

(** [obj.name(pos..., kw...)] on an external object: looked up, logged, run. *)
Definition call_external (id name : string) (pos : list value)
           (kw : list (string * value)) : M value :=
  if w_has W id name then
    record (Call id name pos) ;;; lift (w_call W id name pos kw)
  else raise (AttributeError name).

(** [f(pos..., kw...)] for a value that is not a [def] of this file. *)
Definition call_value (f : value) (pos : list value)
           (kw : list (string * value)) : M value :=
  match f with
  | VObj id =>
      if w_has W id "__call__" then
        record (Call id "__call__" pos) ;;; lift (w_call W id "__call__" pos kw)
      else raise (TypeError "object is not callable")
  | _ => raise (TypeError "object is not callable")
  end.

(** The lookup half of [recv.op(...)]: Python evaluates it before the
    arguments. *)
Definition require_op (recv : value) (op : cop) : M unit :=
  match recv with
  | VObj id =>
      if w_has W id (cop_name op) then ret tt
      else raise (AttributeError (cop_name op))
  | VStr _ =>
      match op with
      | c_lower => ret tt
      | _ => raise (AttributeError (cop_name op))
      end
  | VInst _ d =>
      match assoc (cop_name op) d with
      | Some _ => ret tt
      | None => raise (AttributeError (cop_name op))
      end
  | _ => raise (AttributeError (cop_name op))
  end.

(** [recv.op(pos..., kw...)] where [recv] is a parameter of the caller. The
    classes of this file define none of these names ([cop_not_defined]
    below), so on one of their instances only the dictionary counts. *)
Definition call_method (recv : value) (op : cop) (pos : list value)
           (kw : list (string * value)) : M value :=
  match recv with
  | VObj id => call_external id (cop_name op) pos kw
  | VStr s =>
      match op, pos, kw with
      | c_lower, [], [] => ret (VStr (lower s))
      | c_lower, _, _ => raise (TypeError "lower() takes no arguments")
      | _, _, _ => raise (AttributeError (cop_name op))
      end
  | VInst _ d =>
      match assoc (cop_name op) d with
      | Some f => call_value f pos kw
      | None => raise (AttributeError (cop_name op))
      end
  | _ => raise (AttributeError (cop_name op))
  end.

(** [self.name(pos..., kw...)]. When the name resolves to a [def] of the
    class, the arguments are bound against its signature (with [self] in
    front unless it is a staticmethod) and [body], the embedding of that
    [def], runs on the bound parameters. *)
Definition call_self (self : value) (name : string) (pos : list value)
           (kw : list (string * value))
           (body : list (string * value) -> M value) : M value :=
  match self with
  | VInst c d =>
      match assoc name d with
      | Some f => call_value f pos kw
      | None =>
          match lookup_class c name with
          | Some (Func k sg) =>
              env <- lift (bind_args sg
                             (match k with Plain => self :: pos | Static => pos end) kw) ;;
              body env
          | Some (Data f) => call_value f pos kw
          | None =>
              if mem name object_names then call_value (VObj (append "object." name)) pos kw
              else raise (AttributeError name)
          end
      end
  | VObj id => call_external id name pos kw
  | _ => raise (AttributeError name)
  end.

(** A name the classes do not define has no body to run. *)
Definition undefined_body : list (string * value) -> M value :=
  fun _ => raise (TypeError "no such def").

(** [np.name] looked up, and [np.name(pos..., kw...)] *)
Definition np_lookup (name : string) : M unit :=
  if mem name numpy_names then ret tt else raise (AttributeError name).

Definition np (name : string) (pos : list value) (kw : list (string * value))
  : M value :=
  np_lookup name ;;; lift (w_np W name pos kw).

Definition arith (op : string) (a b : value) : M value :=
  lift (w_arith W op a b).

(** [self.name = v]; the instance after the assignment is returned. *)
Definition setattr (self : value) (name : string) (v : value) : M value :=
  match self with
  | VInst c d => ret (VInst c (update name v d))
  | VObj id => record (Call id "__setattr__" [VStr name; v]) ;;; ret self
  | _ => raise (AttributeError name)
  end.

(** [d[key]] *)
Definition subscript (d : value) (key : string) : M value :=
  match d with
  | VDict kvs =>
      match assoc key kvs with
      | Some v => ret v
      | None => raise (KeyError key)
      end
  | VObj id => call_external id "__getitem__" [VStr key] []
  | _ => raise (TypeError "object is not subscriptable")
  end.

(** [a, b = v] *)
Definition unpack2 (v : value) : M (value * value) :=
  match v with
  | VTuple [a; b] => ret (a, b)
  | VTuple _ => raise (ValueError "wrong number of values to unpack")
  | VObj id =>
      match w_call W id "__iter__" [] [] with
      | inr (VTuple [a; b]) => ret (a, b)
      | inr _ => raise (ValueError "wrong number of values to unpack")
      | inl e => raise e
      end
  | _ => raise (TypeError "cannot unpack non-iterable object")
  end.

End Semantics.

End Py.

Import Py.
Local Open Scope py_scope.

(** ** class Loss *)

Module Loss.
Section WithWorld.

Variable W : world.

(** [Loss._compute_loss_del_params], a staticmethod. In the second branch
    [np.ndims] is looked up, which numpy does not define, and line 17
    reads the local [phi_del_w] before any assignment to it. *)
Definition _compute_loss_del_params (loss_del_phi x approxdist : value) : M value :=
  if negb (hasattr W approxdist "phi_del_params") then
    let loss_del_params := loss_del_phi in
    ret loss_del_params
  else
    phi_del_params <- call_method W approxdist c_phi_del_params [x] [] ;;
    nd <- np W "ndims" [loss_del_phi] [] ;;
    phi_ndims <- arith W "sub" nd (VInt 1) ;;
    raise (UnboundLocalError "phi_del_w").

(** [Loss._vectorise_controlvariate_input], a staticmethod:
    [flattened.reshape] is looked up, then its first argument
    [vectorised_shape] is evaluated, a name bound nowhere. *)
Definition _vectorise_controlvariate_input (val new_shape : value) : M value :=
  flattened <- call_method W val c_flatten [] [("order", VStr "F")] ;;
  require_op W flattened c_reshape ;;;
  raise (NameError "vectorised_shape").

(** [Loss._compute_covariance], a staticmethod. *)
Definition _compute_covariance (val_1 val_2 subtract_mean_from_val_2 : value)
  : M value :=
  val_2 <- (if truthy W subtract_mean_from_val_2 then
              m <- np W "mean" [val_2] [("axis", VInt 1); ("keepdims", VBool true)] ;;
              arith W "sub" val_2 m
            else ret val_2) ;;
  prod <- np W "einsum" [VStr "abi,abj->abij"; val_1; val_2] [] ;;
  np W "mean" [prod] [("axis", VInt 1)].

(** [Loss._compute_controlvariate_samples], a staticmethod: after the
    solve, the einsum reads [cv_vec], which is no parameter of this [def]. *)
Definition _compute_controlvariate_samples (val_vec cov var : value) : M value :=
  a <- np W "linalg.solve" [var; cov] [] ;;
  np_lookup "einsum" ;;;
  raise (NameError "cv_vec").

(** [Loss._unvectorise_controlvariate_output], a staticmethod whose body
    is [pass]. *)
Definition _unvectorise_controlvariate_output (cv_samples val : value) : M value :=
  ret VNone.

(** [Loss._apply_controlvariates] *)
Definition _apply_controlvariates (self val cv num_batch num_samples : value)
  : M value :=
  let vectorise := fun env =>
    _vectorise_controlvariate_input (arg env "val") (arg env "new_shape") in
  let covariance := fun env =>
    _compute_covariance (arg env "val_1") (arg env "val_2")
                        (arg env "subtract_mean_from_val_2") in
  let new_shape := VTuple [num_batch; num_samples; VInt (-1)] in
  val_vec <- call_self W self "_vectorise_controlvariate_input"
               [val] [("new_shape", new_shape)] vectorise ;;
  cv_vec <- call_self W self "_vectorise_controlvariate_input"
              [cv] [("new_shape", new_shape)] vectorise ;;
  var <- call_self W self "_compute_covariance"
           [] [("val_1", cv_vec); ("val_2", cv_vec)] covariance ;;
  cov <- call_self W self "_compute_covariance"
           [] [("val_1", cv_vec); ("val_2", val_vec);
               ("subtract_mean_from_val_2", VBool true)] covariance ;;
  cv_samples <- call_self W self "_compute_controlvariate_samples"
                  [val_vec; cov; var] []
                  (fun env => _compute_controlvariate_samples
                                (arg env "val_vec") (arg env "cov") (arg env "var")) ;;
  val <- call_self W self "_unvectorise_controlvariate_output"
           [cv_samples; val] []
           (fun env => _unvectorise_controlvariate_output
                         (arg env "cv_samples") (arg env "val")) ;;
  ret val.

(** [Loss._compute_joint_del_phi_reparameterisation] *)
Definition _compute_joint_del_phi_reparameterisation
           (self x theta transform_del_phi : value) : M value :=
  joint <- getattr W self "joint" ;;
  joint_del_1 <- call_method W joint c_logprob_del_1 [theta; x] [] ;;
  np W "einsum" [VStr "abj,abj...->ab..."; joint_del_1; transform_del_phi] [].

(** [Loss._compute_approx_del_phi_reparameterisation], a staticmethod. The
    branch taken when [approx_is_mixture] holds is the one without the
    component axis. *)
Definition _compute_approx_del_phi_reparameterisation
           (approx phi theta transform_del_phi approx_is_mixture : value) : M value :=
  if truthy W approx_is_mixture then
    approx_del_1 <- call_method W approx c_logprob_del_1 [theta; phi] [] ;;
    approx_del_2 <- call_method W approx c_logprob_del_2 [theta; phi] [] ;;
    e <- np W "einsum" [VStr "abj,abj...->ab..."; approx_del_1; transform_del_phi] [] ;;
    arith W "add" e approx_del_2
  else
    approx_del_1 <- call_method W approx c_logprob_del_1_components [theta; phi] [] ;;
    approx_del_2 <- call_method W approx c_logprob_del_2_components [theta; phi] [] ;;
    e <- np W "einsum" [VStr "mabj,mabj...->mab..."; approx_del_1; transform_del_phi] [] ;;
    arith W "add" e approx_del_2.

End WithWorld.
End Loss.

(** ** class ReverseKL(Loss) *)

Module ReverseKL.
Section WithWorld.

Variable W : world.

(** Equality of values, as [in] compares the members of a tuple. *)
Fixpoint value_eqb (a b : value) : bool :=
  match a, b with
  | VNone, VNone => true
  | VBool x, VBool y => Bool.eqb x y
  | VInt x, VInt y => (x =? y)%Z
  | VStr x, VStr y => x =? y
  | VTuple xs, VTuple ys =>
      (fix all2 (xs : list value) (ys : list value) : bool :=
         match xs, ys with
         | [], [] => true
         | x :: xs', y :: ys' => value_eqb x y && all2 xs' ys'
         | _, _ => false
         end) xs ys
  | VObj i, VObj j => i =? j
  | _, _ => false
  end.

(** [item in container] *)
Definition contains (container item : value) : M bool :=
  match container with
  | VTuple vs => ret (existsb (value_eqb item) vs)
  | VDict kvs =>
      match item with
      | VStr s => ret (match assoc s kvs with Some _ => true | None => false end)
      | _ => ret false
      end
  | VObj id =>
      r <- call_external W id "__contains__" [item] [] ;;
      ret (truthy W r)
  | _ => raise (TypeError "argument is not iterable")
  end.

(** [ReverseKL.__init__]; the instance as it stands after the assignments
    is returned. *)
Definition __init__ (self jointdist use_reparameterisation method : value)
  : M value :=
  lowered <- call_method W method c_lower [] [] ;;
  methods <- getattr W self "_methods" ;;
  found <- contains methods lowered ;;
  if negb found then
    getattr W self "_methods" ;;;
    raise (ValueError "Invalid method value provided; valid values are: ...")
  else
    self <- setattr self "joint" jointdist ;;
    self <- setattr self "use_reparameterisation" use_reparameterisation ;;
    self <- setattr self "method" method ;;
    ret self.

(** [ReverseKL(pos..., kw...)]: a fresh instance, then [__init__]. *)
Definition new (pos : list value) (kw : list (string * value)) : M value :=
  call_self W (VInst C_ReverseKL []) "__init__" pos kw
    (fun env => __init__ (arg env "self") (arg env "jointdist")
                         (arg env "use_reparameterisation") (arg env "method")).

(** The instance the three assignments of [__init__] build. *)
Definition instance (jointdist use_reparameterisation method : value) : value :=
  VInst C_ReverseKL
    [("joint", jointdist); ("use_reparameterisation", use_reparameterisation);
     ("method", method)].

(** [ReverseKL._eval_elbo_reparameterisation]: [self._compute_joint_del_phi]
    and [self._compute_approx_del_phi] are names no class defines, and the
    einsum that follows reads [joint_del_theta], bound nowhere. *)
Definition _eval_elbo_reparameterisation (self approx phi x num_samples : value)
  : M value :=
  epsilon <- call_method W approx c_sample_base [num_samples] [] ;;
  theta <- call_method W approx c_transform [epsilon; phi] [] ;;
  approx_lp <- call_method W approx c_logprob [theta; phi] [] ;;
  joint <- getattr W self "joint" ;;
  joint_lp <- call_method W joint c_logprob [theta; x] [] ;;
  loss_samples <- arith W "sub" joint_lp approx_lp ;;
  transform_del_phi <- call_method W approx c_transform_del_2 [epsilon; phi] [] ;;
  joint_del_phi <- call_self W self "_compute_joint_del_phi"
                     [x; theta; transform_del_phi] [] (undefined_body) ;;
  approx_del_phi <- call_self W self "_compute_approx_del_phi"
                      [approx; phi; theta; transform_del_phi] [] (undefined_body) ;;
  np_lookup "einsum" ;;;
  raise (NameError "joint_del_theta").

(** [ReverseKL._eval_elbo_cv]: [approx.logpdf] is looked up, then its
    argument [theta_samples], bound nowhere. *)
Definition _eval_elbo_cv (self approx phi x num_samples : value) : M value :=
  theta <- call_method W approx c_sample [num_samples; phi] [] ;;
  require_op W approx c_logpdf ;;;
  raise (NameError "theta_samples").

(** [ReverseKL._eval_selbo_reparameterisation]: the [def] has no [self]
    parameter, and line 163 reads [self]. *)
Definition _eval_selbo_reparameterisation (approx phi x num_samples : value)
  : M value :=
  epsilon <- call_method W approx c_sample_base [num_samples] [] ;;
  theta <- call_method W approx c_transform [epsilon; phi] [] ;;
  approx_lp <- call_method W approx c_logprob [theta; phi] [] ;;
  raise (NameError "self").

(** [ReverseKL._eval_selbo_cv]: no parameters, body [pass]. *)
Definition _eval_selbo_cv : M value := ret VNone.

(** [self._default_num_samples[key] if num_samples is None else num_samples] *)
Definition default_num_samples (self : value) (key : string) (num_samples : value)
  : M value :=
  if is_None num_samples then
    table <- getattr W self "_default_num_samples" ;;
    subscript W table key
  else ret num_samples.

(** [ReverseKL.eval] *)
Definition eval (self approx x num_samples : value) : M value :=
  method <- getattr W self "method" ;;
  estimate <-
    (if eq_str method "elbo" then
       use_reparameterisation <- getattr W self "use_reparameterisation" ;;
       if truthy W use_reparameterisation then
         num_samples <- default_num_samples self "elbo_reparam" num_samples ;;
         call_self W self "_eval_elbo_reparameterisation" [approx; x; num_samples] []
           (fun env => _eval_elbo_reparameterisation
                         (arg env "self") (arg env "approx") (arg env "phi")
                         (arg env "x") (arg env "num_samples"))
       else
         num_samples <- default_num_samples self "elbo_cv" num_samples ;;
         call_self W self "_eval_elbo_cv" [approx; x; num_samples] []
           (fun env => _eval_elbo_cv
                         (arg env "self") (arg env "approx") (arg env "phi")
                         (arg env "x") (arg env "num_samples"))
     else
       method <- getattr W self "method" ;;
       if eq_str method "selbo" then
         use_reparameterisation <- getattr W self "use_reparameterisation" ;;
         if truthy W use_reparameterisation then
           num_samples <- default_num_samples self "selbo_reparam" num_samples ;;
           call_self W self "_eval_selbo_reparameterisation" [approx; x; num_samples] []
             (fun env => _eval_selbo_reparameterisation
                           (arg env "approx") (arg env "phi")
                           (arg env "x") (arg env "num_samples"))
         else
           num_samples <- default_num_samples self "selbo_cv" num_samples ;;
           call_self W self "_eval_selbo_cv" [approx; x; num_samples] []
             (fun _ => _eval_selbo_cv)
       else
         raise (ValueError
                  "Invalid method attribute value: must be either 'elbo' or 'selbo'.")) ;;
  '(loss, loss_del_phi) <- unpack2 W estimate ;;
  loss_del_params <- call_self W self "_eval_loss_del_params"
                       [loss_del_phi; x; approx] [] (undefined_body) ;;
  ret (VTuple [loss; loss_del_params]).

(** [ReverseKL(jointdist, use_reparameterisation, method).eval(approx, x, num_samples)] *)
Definition new_then_eval (jointdist use_reparameterisation method
                          approx x num_samples : value) : M value :=
  self <- new [jointdist; use_reparameterisation; method] [] ;;
  call_self W self "eval" [approx; x; num_samples] []
    (fun env => eval (arg env "self") (arg env "approx") (arg env "x")
                     (arg env "num_samples")).

End WithWorld.
End ReverseKL.

(** ** class ForwardKL(Loss) *)

Module ForwardKL.
Section WithWorld.

Variable W : world.

(** [ForwardKL.__init__] *)
Definition __init__ (self jointdist posterior_samples use_reparameterisation : value)
  : M value :=
  self <- setattr self "joint" jointdist ;;
  self <- setattr self "posterior_samples" posterior_samples ;;
  self <- setattr self "use_reparameterisation" use_reparameterisation ;;
  ret self.

(** The instance the three assignments of [__init__] build. *)
Definition instance (jointdist posterior_samples use_reparameterisation : value)
  : value :=
  VInst C_ForwardKL
    [("joint", jointdist); ("posterior_samples", posterior_samples);
     ("use_reparameterisation", use_reparameterisation)].

(** [ForwardKL(pos..., kw...)] *)
Definition new (pos : list value) (kw : list (string * value)) : M value :=
  call_self W (VInst C_ForwardKL []) "__init__" pos kw
    (fun env => __init__ (arg env "self") (arg env "jointdist")
                         (arg env "posterior_samples")
                         (arg env "use_reparameterisation")).

(** [ForwardKL._compute_importance_samples], a staticmethod. *)
Definition _compute_importance_samples (samples approx_logprob joint_logprob : value)
  : M value :=
  log_wts <- arith W "sub" joint_logprob approx_logprob ;;
  m <- np W "max" [log_wts] [("axis", VInt 1)] ;;
  log_wts_max <- call_method W m c_reshape [VInt (-1); VInt 1] [] ;;
  shifted <- arith W "sub" log_wts log_wts_max ;;
  unnorm_wts <- np W "exp" [shifted] [] ;;
  weighted <- arith W "mul" unnorm_wts samples ;;
  total <- np W "sum" [unnorm_wts] [("axis", VInt 1)] ;;
  total <- call_method W total c_reshape [VInt (-1); VInt 1] [] ;;
  arith W "truediv" weighted total.

(** [ForwardKL._eval_posterior_samples]: the parameter is [approxdist];
    the body reads [approx], bound nowhere. *)
Definition _eval_posterior_samples (self approxdist phi x num_samples : value)
  : M value :=
  raise (NameError "approx").

(** [-1*np.mean(samples, axis=1)] *)
Definition neg_mean (samples : value) : M value :=
  m <- np W "mean" [samples] [("axis", VInt 1)] ;;
  arith W "mul" (VInt (-1)) m.

(** [ForwardKL._eval_reparameterisation] *)
Definition _eval_reparameterisation (self approx phi x num_samples : value)
  : M value :=
  let importance := fun env =>
    _compute_importance_samples (arg env "samples") (arg env "approx_logprob")
                                (arg env "joint_logprob") in
  epsilon <- call_method W approx c_sample_base [num_samples] [] ;;
  theta <- call_method W approx c_transform [epsilon; phi] [] ;;
  approx_lp <- call_method W approx c_logprob [theta; phi] [] ;;
  let loss_samples := approx_lp in
  transform_del_phi <- call_method W approx c_transform_del_2 [epsilon; phi] [] ;;
  joint_del_phi <- call_self W self "_compute_joint_del_phi_reparameterisation"
                     [x; theta; transform_del_phi] []
                     (fun env => Loss._compute_joint_del_phi_reparameterisation W
                                   (arg env "self") (arg env "x") (arg env "theta")
                                   (arg env "transform_del_phi")) ;;
  approx_del_phi <- call_self W self "_compute_approx_del_phi_reparameterisation"
                      [approx; phi; theta; transform_del_phi] []
                      (fun env => Loss._compute_approx_del_phi_reparameterisation W
                                    (arg env "approx") (arg env "phi") (arg env "theta")
                                    (arg env "transform_del_phi")
                                    (arg env "approx_is_mixture")) ;;
  e1 <- np W "einsum" [VStr "ab,ab...->ab..."; approx_lp; joint_del_phi] [] ;;
  one_minus <- arith W "sub" (VInt 1) approx_lp ;;
  e2 <- np W "einsum" [VStr "ab,ab...->ab..."; one_minus; approx_del_phi] [] ;;
  loss_del_phi_samples <- arith W "add" e1 e2 ;;
  joint <- getattr W self "joint" ;;
  joint_lp <- call_method W joint c_logprob [theta; x] [] ;;
  loss_samples <- call_self W self "_compute_importance_samples"
                    [loss_samples; approx_lp; joint_lp] [] importance ;;
  loss_del_phi_samples <- call_self W self "_compute_importance_samples"
                            [loss_del_phi_samples; approx_lp; joint_lp] [] importance ;;
  loss <- neg_mean loss_samples ;;
  loss_del_phi <- neg_mean loss_del_phi_samples ;;
  ret (VTuple [loss; loss_del_phi]).

(** [ForwardKL._eval_controlvariates]: [approx.logprob] is looked up,
    then its argument [theta_samples], bound nowhere. *)
Definition _eval_controlvariates (self approx phi x num_samples return_grad : value)
  : M value :=
  theta <- call_method W approx c_sample [num_samples; phi] [] ;;
  require_op W approx c_logprob ;;;
  raise (NameError "theta_samples").

(** [ForwardKL.eval] *)
Definition eval (self approx x num_samples : value) : M value :=
  if forallb (fun attr => negb (hasattr W self attr)) ["joint"; "posterior_samples"]
  then raise (ValueError "Must specify either jointdist or posterior_samples.")
  else
    phi <- call_method W approx c_phi [x] [] ;;
    posterior_samples <- getattr W self "posterior_samples" ;;
    estimate <-
      (if negb (is_None posterior_samples) then
         call_self W self "_eval_posterior_samples" [approx; phi] []
           (fun env => _eval_posterior_samples
                         (arg env "self") (arg env "approxdist") (arg env "phi")
                         (arg env "x") (arg env "num_samples"))
       else
         use_reparameterisation <- getattr W self "use_reparameterisation" ;;
         if truthy W use_reparameterisation then
           call_self W self "_eval_reparameterisation" [approx; phi; x; num_samples] []
             (fun env => _eval_reparameterisation
                           (arg env "self") (arg env "approx") (arg env "phi")
                           (arg env "x") (arg env "num_samples"))
         else
           call_self W self "_eval_controlvariates" [approx; phi; x; num_samples] []
             (fun env => _eval_controlvariates
                           (arg env "self") (arg env "approx") (arg env "phi")
                           (arg env "x") (arg env "num_samples")
                           (arg env "return_grad"))) ;;
    '(loss, loss_del_phi) <- unpack2 W estimate ;;
    loss_del_params <- call_self W self "_eval_loss_del_params"
                         [loss_del_phi; x; approx] [] (undefined_body) ;;
    ret (VTuple [loss; loss_del_params]).

(** [ForwardKL(pos..., kw...).eval(approx, x)] with the default
    [num_samples]. *)
Definition new_then_eval (pos : list value) (kw : list (string * value))
           (approx x : value) : M value :=
  self <- new pos kw ;;
  call_self W self "eval" [approx; x] []
    (fun env => eval (arg env "self") (arg env "approx") (arg env "x")
                     (arg env "num_samples")).

End WithWorld.
End ForwardKL.

(** ** The array arithmetic of the reductions *)

Module Numeric.

Local Open Scope R_scope.

Definition vec := list R.
Definition mat := list vec.
Definition ten3 := list mat.

Notation "x <~ m ;; k" := (match m with inl e => inl e | inr x => k end)
  (at level 61, m at next level, right associativity).

Definition rows (A : mat) : nat := List.length A.
Definition cols (A : mat) : nat := List.length (hd [] A).
Definition entry (A : mat) (i j : nat) : R := nth j (nth i A []) 0.

(** The [r] by [c] array whose entry [(i, j)] is [f i j]. *)
Definition tabulate (r c : nat) (f : nat -> nat -> R) : mat :=
  map (fun i => map (fun j => f i j) (seq 0 c)) (seq 0 r).

(** [A.shape == (r, c)] *)
Definition shape_is (A : mat) (r c : nat) : bool :=
  (List.length A =? r)%nat && forallb (fun row => (List.length row =? c)%nat) A.

(** numpy's broadcasting of two axis lengths. *)
Definition broadcast_dim (n1 n2 : nat) : option nat :=
  if (n1 =? n2)%nat then Some n1
  else if (n1 =? 1)%nat then Some n2
  else if (n2 =? 1)%nat then Some n1
  else None.

(** An axis of length one is read at index zero. *)
Definition stretch (n i : nat) : nat := if (n =? 1)%nat then 0%nat else i.

(** An elementwise operator on two arrays of shape [(_, _)]. *)
Definition broadcast (f : R -> R -> R) (A B : mat) : result mat :=
  match broadcast_dim (rows A) (rows B), broadcast_dim (cols A) (cols B) with
  | Some r, Some c =>
      inr (tabulate r c (fun i j =>
             f (entry A (stretch (rows A) i) (stretch (cols A) j))
               (entry B (stretch (rows B) i) (stretch (cols B) j))))
  | _, _ => inl (ValueError "operands could not be broadcast together")
  end.

(** [np.sum] and [np.mean] of one row. *)
Definition sum (v : vec) : R := fold_right Rplus 0 v.
Definition mean (v : vec) : R := sum v / INR (List.length v).

(** [np.sum(A, axis=1)], [np.mean(A, axis=1)] *)
Definition sum_axis1 (A : mat) : vec := map sum A.
Definition mean_axis1 (A : mat) : vec := map mean A.

(** [np.max(A, axis=1)]: a reduction over an empty axis is refused. *)
Definition max_axis1 (A : mat) : result vec :=
  if existsb (fun row => (List.length row =? 0)%nat) A then
    inl (ValueError "zero-size array to reduction operation maximum")
  else inr (map (fun row => fold_right Rmax (hd 0 row) row) A).

(** [v.reshape(-1, 1)] *)
Definition reshape_column (v : vec) : mat := map (fun x => [x]) v.

(** [np.mean(T, axis=1)] for [T] of shape [(a, b, p)]. *)
Definition mean_axis1_3 (T : ten3) : mat :=
  map (fun slab => map (fun p => mean (map (fun row => nth p row 0) slab))
                       (seq 0 (cols slab))) T.

(** [np.einsum("m, mab->ab", c, L)] *)
Definition einsum_m_mab (c : vec) (L : ten3) : result mat :=
  if (List.length c =? List.length L)%nat then
    inr (tabulate (rows (hd [] L)) (cols (hd [] L))
           (fun a b => sum (map (fun cl => fst cl * entry (snd cl) a b) (combine c L))))
  else inl (ValueError "einsum: operand sizes do not match").

(** [ForwardKL._compute_importance_samples] on arrays of shape
    [(num_batch, num_samples)]. *)
Definition _compute_importance_samples (samples approx_logprob joint_logprob : mat)
  : result mat :=
  log_wts <~ broadcast Rminus joint_logprob approx_logprob ;;
  m <~ max_axis1 log_wts ;;
  let log_wts_max := reshape_column m in
  shifted <~ broadcast Rminus log_wts log_wts_max ;;
  let unnorm_wts := map (map exp) shifted in
  weighted <~ broadcast Rmult unnorm_wts samples ;;
  broadcast Rdiv weighted (reshape_column (sum_axis1 unnorm_wts)).

(** Lines 131-134, the last step of [ReverseKL._eval_elbo_reparameterisation]
    (lines 152-155, 241-244 and 264-267 are the same):
    [loss = -1*np.mean(loss_samples, axis=1)] and
    [loss_del_phi = -1*np.mean(loss_del_phi_samples, axis=1)]. *)
Definition elbo_loss (loss_samples : mat) : vec :=
  map (fun m => -1 * m) (mean_axis1 loss_samples).

Definition elbo_loss_del_phi (loss_del_phi_samples : ten3) : mat :=
  map (map (fun m => -1 * m)) (mean_axis1_3 loss_del_phi_samples).

Definition _eval_elbo_reparameterisation (loss_samples : mat)
           (loss_del_phi_samples : ten3) : vec * mat :=
  (elbo_loss loss_samples, elbo_loss_del_phi loss_del_phi_samples).

(** Lines 174-178, the last step of [ReverseKL._eval_selbo_reparameterisation]:
    [loss = np.mean(np.einsum("m, mab->ab", coefficients, loss_samples), axis=1)]
    and [loss_del_phi = np.einsum("m, mab->ab", coefficients, loss_del_phi_samples)]. *)
Definition selbo_loss (coefficients : vec) (loss_samples : ten3) : result vec :=
  per_sample <~ einsum_m_mab coefficients loss_samples ;;
  inr (mean_axis1 per_sample).

Definition selbo_loss_del_phi (coefficients : vec) (loss_del_phi_samples : ten3)
  : result mat :=
  einsum_m_mab coefficients loss_del_phi_samples.

Definition _eval_selbo_reparameterisation (coefficients : vec)
           (loss_samples loss_del_phi_samples : ten3) : result (vec * mat) :=
  loss <~ selbo_loss coefficients loss_samples ;;
  loss_del_phi <~ selbo_loss_del_phi coefficients loss_del_phi_samples ;;
  inr (loss, loss_del_phi).

(** The loss as the specification words it: the negation of the mean, over
    the sample axis, of the per-sample estimates. *)
Definition negated_sample_mean (per_sample : mat) : vec :=
  map (fun row => - mean row) per_sample.

(** The specification's reading of the weighting at equal log weights:
    every returned entry is the mean of its batch row. *)
Definition returns_sample_mean (samples log_weight : mat) : Prop :=
  forall out, _compute_importance_samples samples log_weight log_weight = inr out ->
  forall i j, (i < rows samples)%nat -> (j < cols samples)%nat ->
              entry out i j = mean (nth i samples []).

End Numeric.

(** ** Two concrete worlds *)

(** Every external object offers every operation; a call answers with a
    reference named after the receiver and the operation. *)
Definition full_world : world :=
  World (fun _ _ => true)
        (fun id name _ _ => inr (VObj (append id (append "." name))))
        (fun _ => true)
        (fun name _ _ => inr (VObj (append "np." name)))
        (fun op _ _ => inr (VObj op)).

(** As [full_world], but no external object has [phi_del_params]: the
    approximating family works on its parameters directly. *)
Definition direct_world : world :=
  World (fun _ name => negb (name =? "phi_del_params"))
        (fun id name _ _ => inr (VObj (append id (append "." name))))
        (fun _ => true)
        (fun name _ _ => inr (VObj (append "np." name)))
        (fun op _ _ => inr (VObj op)).

(** ** Computations that end in an exception *)

(** From every log, [m] ends in an exception. *)
Definition never_returns {A : Type} (m : M A) : Prop :=
  forall l, exists e l', m l = (inl e, l').

(** ** The covariance of the control-variate reduction, on arrays *)

Module Covariance.

Import Numeric.
Local Open Scope R_scope.

(** The lengths of the three axes of an array of shape [(a, b, c)], and its
    entries. *)
Definition dim0 (T : ten3) : nat := List.length T.
Definition dim1 (T : ten3) : nat := rows (hd [] T).
Definition dim2 (T : ten3) : nat := cols (hd [] T).
Definition entry3 (T : ten3) (x y k : nat) : R := entry (nth x T []) y k.
Definition entry4 (P : list ten3) (x y k l : nat) : R := entry3 (nth x P []) y k l.

Definition tabulate3 (a b c : nat) (f : nat -> nat -> nat -> R) : ten3 :=
  map (fun x => tabulate b c (f x)) (seq 0 a).

Definition tabulate4 (a b c d : nat) (f : nat -> nat -> nat -> nat -> R) : list ten3 :=
  map (fun x => tabulate3 b c d (f x)) (seq 0 a).

(** [T.shape == (a, b, c)] *)
Definition shape3_is (T : ten3) (a b c : nat) : bool :=
  (List.length T =? a)%nat && forallb (fun slab => shape_is slab b c) T.

(** [val - np.mean(val, axis=1, keepdims=True)]: the mean has shape
    [(a, 1, c)] and is stretched along the sample axis. *)
Definition subtract_sample_mean (val : ten3) : ten3 :=
  tabulate3 (dim0 val) (dim1 val) (dim2 val)
    (fun x y k =>
       entry3 val x y k - mean (map (fun y' => entry3 val x y' k) (seq 0 (dim1 val)))).

(** [np.einsum("abi,abj->abij", val_1, val_2)]: the axes [a] and [b] of the
    operands have to agree, up to broadcasting. *)
Definition einsum_abi_abj (val_1 val_2 : ten3) : result (list ten3) :=
  match broadcast_dim (dim0 val_1) (dim0 val_2),
        broadcast_dim (dim1 val_1) (dim1 val_2) with
  | Some a, Some b =>
      inr (tabulate4 a b (dim2 val_1) (dim2 val_2)
             (fun x y k l =>
                entry3 val_1 (stretch (dim0 val_1) x) (stretch (dim1 val_1) y) k
                * entry3 val_2 (stretch (dim0 val_2) x) (stretch (dim1 val_2) y) l))
  | _, _ => inl (ValueError "operands could not be broadcast together")
  end.

(** [np.mean(P, axis=1)] for [P] of shape [(a, b, i, j)]. *)
Definition mean_axis1_4 (P : list ten3) : ten3 :=
  tabulate3 (List.length P) (dim1 (hd [] P)) (dim2 (hd [] P))
    (fun x k l => mean (map (fun y => entry4 P x y k l) (seq 0 (dim0 (hd [] P))))).

(** [Loss._compute_covariance] on arrays of shape
    [(num_batch, num_samples, dim)]. *)
Definition _compute_covariance (val_1 val_2 : ten3) (subtract_mean_from_val_2 : bool)
  : result ten3 :=
  let val_2 := if subtract_mean_from_val_2 then subtract_sample_mean val_2 else val_2 in
  products <~ einsum_abi_abj val_1 val_2 ;;
  inr (mean_axis1_4 products).

End Covariance.

(** * Properties *)

(** ** Name resolution and argument binding *)

(** No class of the file defines a name the source invokes on a collaborator. *)
Lemma cop_not_defined (c : class) (op : cop) :
  lookup_class c (cop_name op) = None /\ mem (cop_name op) object_names = false.
Proof. destruct c, op; split; reflexivity. Qed.

(** [_methods], [_eval_loss_del_params], [_compute_joint_del_phi] and
    [_compute_approx_del_phi] are defined by no class. *)
Lemma undefined_names (c : class) :
  Forall (fun name => class_has c name = false)
         ["_methods"; "_eval_loss_del_params"; "_compute_joint_del_phi";
          "_compute_approx_del_phi"].
Proof. destruct c; repeat constructor. Qed.

(** A successful binding gives the first positional argument to the first
    parameter. *)
Lemma bind_args_first (p : string) (ps : list string) (ds : list (string * value))
      (v : value) (pos : list value) (kw env : list (string * value)) :
  bind_args (Sig (p :: ps) ds) (v :: pos) kw = inr env -> arg env p = v.
Proof.
  unfold bind_args; cbn [params defaults bind_positional].
  destruct (bind_positional ps pos) as [e | [env1 rest1]]; [discriminate |].
  destruct (bind_keywords rest1 kw) as [e | [env2 rest2]]; [discriminate |].
  destruct (bind_defaults rest2 ds) as [e | env3]; [discriminate |].
  intros H; injection H as <-.
  unfold arg; cbn [assoc app]. now rewrite String.eqb_refl.
Qed.

(** ** ReverseKL *)

Lemma ReverseKL_init_raises (W : world) (jointdist use_reparameterisation method : value)
      (l : log) :
  exists e l',
    ReverseKL.__init__ W (VInst C_ReverseKL []) jointdist use_reparameterisation method l
    = (inl e, l').
Proof.
  unfold ReverseKL.__init__, bind.
  destruct (call_method W method c_lower [] [] l) as [[e | lowered] l'];
    [now exists e, l' |].
  now exists (AttributeError "_methods"), l'.
Qed.

(** C10: whatever the arguments, [ReverseKL(...)] raises. With a string for
    [method] the exception is the [AttributeError] of [self._methods], a name
    that the instance, [ReverseKL], [Loss] and [object] all lack, raised before
    any collaborator is touched; so a call of [eval] on the constructed
    instance is never reached. *)
Theorem ReverseKL_constructor_always_raises (W : world) :
  (forall pos kw l, exists e l', ReverseKL.new W pos kw l = (inl e, l'))
  /\ (forall jointdist use_reparameterisation (method : string) l,
        ReverseKL.new W [jointdist; use_reparameterisation; VStr method] [] l
        = (inl (AttributeError "_methods"), l))
  /\ (forall jointdist l,
        ReverseKL.new W [jointdist] [] l = (inl (AttributeError "_methods"), l))
  /\ class_has C_ReverseKL "_methods" = false
  /\ (forall jointdist use_reparameterisation (method : string) approx x num_samples l,
        ReverseKL.new_then_eval W jointdist use_reparameterisation (VStr method)
                                approx x num_samples l
        = (inl (AttributeError "_methods"), l)).
Proof.
  split; [| split; [| split; [| split]]].
  - intros pos kw l.
    unfold ReverseKL.new, call_self; cbn [assoc lookup_class mro lookup_in class_members].
    cbv beta iota delta [ReverseKL_members assoc String.eqb Ascii.eqb Bool.eqb].
    unfold bind at 1, lift.
    destruct (bind_args _ (VInst C_ReverseKL [] :: pos) kw) as [e | env] eqn:E.
    + now exists e, l.
    + rewrite (bind_args_first _ _ _ _ _ _ _ E).
      apply ReverseKL_init_raises.
  - reflexivity.
  - reflexivity.
  - reflexivity.
  - intros. unfold ReverseKL.new_then_eval, bind. reflexivity.
Qed.

(** The test of [eval] itself (lines 109-110), on an instance as the
    assignments of [__init__] would leave it: with [method] a string other
    than ['elbo'] and ['selbo'] it raises its [ValueError] and the log is as it
    was on entry. No such instance comes out of the constructor, which
    stops on [self._methods]. *)
Lemma ReverseKL_eval_rejects_unknown_method
        (W : world) (jointdist use_reparameterisation : value) (method : string)
        (approx x num_samples : value) (l : log) :
  method <> "elbo" -> method <> "selbo" ->
  ReverseKL.eval W (ReverseKL.instance jointdist use_reparameterisation (VStr method))
                 approx x num_samples l
  = (inl (ValueError "Invalid method attribute value: must be either 'elbo' or 'selbo'."),
     l).
Proof.
  intros Helbo Hselbo.
  apply String.eqb_neq in Helbo, Hselbo.
  unfold ReverseKL.eval, ReverseKL.instance, bind, getattr, ret, raise, eq_str.
  cbn [assoc String.eqb Ascii.eqb Bool.eqb].
  now rewrite Helbo, Hselbo.
Qed.

(** C2: with [method] one of ['elbo'], ['selbo'] and [use_reparameterisation]
    a boolean, [eval] returns no pair: it raises before any collaborator is
    called. Three of the four branches pass three arguments to a [def] that
    takes another number of them; the fourth binds the instance itself to
    the parameter [approx] of [_eval_selbo_reparameterisation]. Going
    through the constructor, the call stops there. *)
Theorem ReverseKL_eval_raises_on_every_valid_method
        (W : world) (jointdist approx x num_samples : value) (l : log) :
  ReverseKL.eval W (ReverseKL.instance jointdist (VBool true) (VStr "elbo"))
                 approx x num_samples l
  = (inl (TypeError "missing required argument: num_samples"), l)
  /\ ReverseKL.eval W (ReverseKL.instance jointdist (VBool false) (VStr "elbo"))
                    approx x num_samples l
     = (inl (TypeError "missing required argument: num_samples"), l)
  /\ ReverseKL.eval W (ReverseKL.instance jointdist (VBool true) (VStr "selbo"))
                    approx x num_samples l
     = (inl (AttributeError "sample_base"), l)
  /\ ReverseKL.eval W (ReverseKL.instance jointdist (VBool false) (VStr "selbo"))
                    approx x num_samples l
     = (inl (TypeError "too many positional arguments"), l)
  /\ ReverseKL.new_then_eval W jointdist (VBool true) (VStr "elbo") approx x num_samples l
     = (inl (AttributeError "_methods"), l).
Proof.
  repeat apply conj; destruct num_samples; reflexivity.
Qed.

(** ** Loss *)

(** C9: when the approximating distribution has no [phi_del_params], the
    lifting returns the very [loss_del_phi] it was given, and calls nothing. *)
Theorem compute_loss_del_params_identity
        (W : world) (loss_del_phi x approxdist : value) (l : log) :
  hasattr W approxdist "phi_del_params" = false ->
  Loss._compute_loss_del_params W loss_del_phi x approxdist l = (inr loss_del_phi, l).
Proof.
  intros H. unfold Loss._compute_loss_del_params. now rewrite H.
Qed.

Lemma compute_loss_del_params_identity_witness :
  Loss._compute_loss_del_params direct_world (VObj "loss_del_phi") (VObj "x")
                                (VObj "approx") []
  = (inr (VObj "loss_del_phi"), []).
Proof.
  apply (compute_loss_del_params_identity
           direct_world (VObj "loss_del_phi") (VObj "x") (VObj "approx") []).
  reflexivity.
Defined.

Lemma vectorise_controlvariate_input_raises (W : world) (val new_shape : value) (l : log) :
  exists e l', Loss._vectorise_controlvariate_input W val new_shape l = (inl e, l').
Proof.
  unfold Loss._vectorise_controlvariate_input, bind.
  destruct (call_method W val c_flatten [] [("order", VStr "F")] l)
    as [[e | flattened] l1]; [now exists e, l1 |].
  destruct (require_op W flattened c_reshape l1) as [[e | []] l2]; [now exists e, l2 |].
  now exists (NameError "vectorised_shape"), l2.
Qed.

(** [_vectorise_controlvariate_input], the first thing the reduction calls,
    resolves to the staticmethod of [Loss] on an instance whose dictionary
    does not shadow it, and never returns. *)
Lemma apply_controlvariates_raises (W : world) (c : class) (dict : list (string * value))
      (val cv num_batch num_samples : value) (l : log) :
  assoc "_vectorise_controlvariate_input" dict = None ->
  exists e l',
    Loss._apply_controlvariates W (VInst c dict) val cv num_batch num_samples l
    = (inl e, l').
Proof.
  intros Hd. unfold Loss._apply_controlvariates, call_self. rewrite Hd.
  assert (Hc : lookup_class c "_vectorise_controlvariate_input"
               = Some (Func Static (Sig ["val"; "new_shape"] []))) by now destruct c.
  rewrite Hc. unfold bind at 1. unfold bind at 1.
  cbn [lift bind_args bind_positional bind_keywords bind_defaults params defaults
       mem existsb String.eqb Ascii.eqb Bool.eqb orb remove_name app arg assoc].
  destruct (vectorise_controlvariate_input_raises
              W val (VTuple [num_batch; num_samples; VInt (-1)]) l) as (e & l' & E).
  rewrite E. now exists e, l'.
Qed.

(** C7: the control-variate reduction returns nothing, whatever the value and
    the control variate, on [Loss()] as on a [ForwardKL] instance. With arrays
    that have [flatten] and [reshape] the exception is the [NameError] of
    [vectorised_shape], raised after [val.flatten] alone has run. *)
Theorem apply_controlvariates_never_returns
        (W : world) (val cv num_batch num_samples : value) (l : log) :
  (exists e l',
     Loss._apply_controlvariates W (VInst C_Loss []) val cv num_batch num_samples l
     = (inl e, l'))
  /\ (forall jointdist posterior_samples use_reparameterisation, exists e l',
        Loss._apply_controlvariates
          W (ForwardKL.instance jointdist posterior_samples use_reparameterisation)
          val cv num_batch num_samples l = (inl e, l'))
  /\ Loss._apply_controlvariates full_world (VInst C_Loss [])
                                 (VObj "val") (VObj "cv") (VInt 1) (VInt 2) []
     = (inl (NameError "vectorised_shape"), [Call "val" "flatten" []]).
Proof.
  split; [| split].
  - now apply apply_controlvariates_raises.
  - intros. now apply apply_controlvariates_raises.
  - reflexivity.
Qed.

(** ** ForwardKL *)

(** [__init__] always assigns [joint] and [posterior_samples], so the
    [hasattr] test at the head of [eval] finds both, also when both are
    [None]. *)
Lemma ForwardKL_guard_never_fires
      (W : world) (jointdist posterior_samples use_reparameterisation : value) :
  forallb (fun attr =>
             negb (hasattr W (ForwardKL.instance jointdist posterior_samples
                                                 use_reparameterisation) attr))
          ["joint"; "posterior_samples"] = false.
Proof. reflexivity. Qed.

(** C4: [ForwardKL()] with neither [jointdist] nor [posterior_samples] is
    built without complaint, and [eval] on it does not stop at its entry test:
    [approx.phi] is called first. With [use_reparameterisation] the base
    samples are drawn and three more operations of the approximating
    distribution run before [None.logprob_del_1] fails; without it the call
    of [_eval_controlvariates] lacks an argument. Neither exception is the
    [ValueError] of the entry test. *)
Theorem ForwardKL_unconfigured_eval_passes_entry_test :
  (forall W l,
      ForwardKL.new W [] [] l = (inr (ForwardKL.instance VNone VNone (VBool false)), l))
  /\ ForwardKL.new_then_eval full_world [] [("use_reparameterisation", VBool true)]
                             (VObj "approx") (VObj "x") []
     = (inl (AttributeError "logprob_del_1"),
        [ Call "approx" "phi" [VObj "x"];
          Call "approx" "sample_base" [VInt 1000];
          Call "approx" "transform" [VObj "approx.sample_base"; VObj "approx.phi"];
          Call "approx" "logprob" [VObj "approx.transform"; VObj "approx.phi"];
          Call "approx" "transform_del_2" [VObj "approx.sample_base"; VObj "approx.phi"] ])
  /\ ForwardKL.new_then_eval full_world [] [] (VObj "approx") (VObj "x") []
     = (inl (TypeError "missing required argument: return_grad"),
        [ Call "approx" "phi" [VObj "x"] ]).
Proof.
  split; [| split]; reflexivity.
Qed.

(** ** Arrays *)

Section ArrayFacts.

Import Numeric.
Local Open Scope R_scope.

Lemma map_nth_seq_all {A : Type} (l : list A) (d : A) :
  map (fun i => nth i l d) (seq 0 (List.length l)) = l.
Proof.
  apply nth_ext with (d := d) (d' := d).
  - now rewrite length_map, length_seq.
  - intros n Hn. rewrite length_map, length_seq in Hn.
    rewrite nth_indep with (d' := nth 0%nat l d) by now rewrite length_map, length_seq.
    rewrite (map_nth (fun i => nth i l d) (seq 0 (List.length l)) 0%nat n).
    now rewrite seq_nth.
Qed.

Lemma shape_is_spec (A : mat) (r c : nat) :
  shape_is A r c = true <->
  List.length A = r /\ Forall (fun row => List.length row = c) A.
Proof.
  unfold shape_is. rewrite andb_true_iff, Nat.eqb_eq, forallb_forall, Forall_forall.
  split; intros [H1 H2]; split; auto; intros row Hrow; apply Nat.eqb_eq; auto.
Qed.

Lemma shape_rows (A : mat) (r c : nat) : shape_is A r c = true -> rows A = r.
Proof. intros H. now apply shape_is_spec in H. Qed.

Lemma shape_cols (A : mat) (r c : nat) :
  shape_is A r c = true -> (0 < r)%nat -> cols A = c.
Proof.
  intros H Hr. apply shape_is_spec in H as [Hlen Hall].
  destruct A as [| row A]; cbn in *; [lia |]. now inversion Hall.
Qed.

Lemma shape_row_length (A : mat) (r c i : nat) :
  shape_is A r c = true -> (i < r)%nat -> List.length (nth i A []) = c.
Proof.
  intros H Hi. apply shape_is_spec in H as [Hlen Hall].
  rewrite Forall_forall in Hall. apply Hall, nth_In. lia.
Qed.

Lemma tabulate_ext (r c : nat) (f g : nat -> nat -> R) :
  (forall i j, (i < r)%nat -> (j < c)%nat -> f i j = g i j) ->
  tabulate r c f = tabulate r c g.
Proof.
  intros H. unfold tabulate.
  apply map_ext_in; intros i Hi. apply map_ext_in; intros j Hj.
  apply in_seq in Hi, Hj. apply H; lia.
Qed.

Lemma tabulate_entry (A : mat) (r c : nat) :
  shape_is A r c = true -> tabulate r c (entry A) = A.
Proof.
  intros H. unfold tabulate, entry.
  transitivity (map (fun i => nth i A []) (seq 0 (List.length A)));
    [| apply map_nth_seq_all].
  pose proof (shape_rows _ _ _ H) as Hr. unfold rows in Hr. rewrite Hr.
  apply map_ext_in; intros i Hi. apply in_seq in Hi.
  rewrite <- (shape_row_length A r c i H) by lia.
  apply map_nth_seq_all.
Qed.

Lemma shape_is_tabulate (r c : nat) (f : nat -> nat -> R) :
  shape_is (tabulate r c f) r c = true.
Proof.
  apply shape_is_spec. unfold tabulate. split.
  - now rewrite length_map, length_seq.
  - apply Forall_forall. intros row Hrow. apply in_map_iff in Hrow as (i & <- & _).
    now rewrite length_map, length_seq.
Qed.

Lemma entry_tabulate (r c : nat) (f : nat -> nat -> R) (i j : nat) :
  (i < r)%nat -> (j < c)%nat -> entry (tabulate r c f) i j = f i j.
Proof.
  intros Hi Hj. unfold entry, tabulate.
  rewrite nth_indep with (d' := map (fun j => f 0%nat j) (seq 0 c))
    by now rewrite length_map, length_seq.
  rewrite (map_nth (fun i => map (fun j => f i j) (seq 0 c)) (seq 0 r) 0%nat i).
  rewrite seq_nth by lia. cbn [Nat.add].
  rewrite nth_indep with (d' := f i 0%nat) by now rewrite length_map, length_seq.
  rewrite (map_nth (fun j => f i j) (seq 0 c) 0%nat j).
  now rewrite seq_nth.
Qed.

Lemma map_tabulate (g : R -> R) (r c : nat) (f : nat -> nat -> R) :
  map (map g) (tabulate r c f) = tabulate r c (fun i j => g (f i j)).
Proof.
  unfold tabulate. rewrite map_map. apply map_ext; intros i. now rewrite map_map.
Qed.

Lemma map_entries (g : R -> R) (A : mat) (r c : nat) :
  shape_is A r c = true -> tabulate r c (fun i j => g (entry A i j)) = map (map g) A.
Proof.
  intros H. rewrite <- map_tabulate. now rewrite tabulate_entry.
Qed.

Lemma broadcast_same (f : R -> R -> R) (A B : mat) (r c : nat) :
  shape_is A r c = true -> shape_is B r c = true ->
  broadcast f A B = inr (tabulate r c (fun i j => f (entry A i j) (entry B i j))).
Proof.
  intros HA HB. unfold broadcast.
  rewrite (shape_rows _ _ _ HA), (shape_rows _ _ _ HB).
  destruct r as [| r'].
  - apply shape_is_spec in HA as [HA _]. apply shape_is_spec in HB as [HB _].
    destruct A; [| discriminate]. destruct B; [| discriminate]. reflexivity.
  - rewrite (shape_cols _ _ _ HA), (shape_cols _ _ _ HB) by lia.
    unfold broadcast_dim. rewrite !Nat.eqb_refl. f_equal.
    apply tabulate_ext. intros i j Hi Hj. unfold stretch.
    destruct (Nat.eqb_spec (S r') 1), (Nat.eqb_spec c 1);
      repeat match goal with
             | |- context [stretch _ _] => unfold stretch
             end;
      f_equal; f_equal; lia.
Qed.

Lemma entry_reshape_column (v : vec) (i : nat) :
  entry (reshape_column v) i 0 = nth i v 0.
Proof.
  unfold entry, reshape_column. revert i.
  induction v as [| x v IH]; intros [| i]; cbn; auto.
Qed.

Lemma shape_reshape_column (v : vec) :
  shape_is (reshape_column v) (List.length v) 1 = true.
Proof.
  apply shape_is_spec. unfold reshape_column. split.
  - now rewrite length_map.
  - apply Forall_forall. intros row Hrow. now apply in_map_iff in Hrow as (x & <- & _).
Qed.

Lemma broadcast_column (f : R -> R -> R) (A : mat) (v : vec) (r c : nat) :
  shape_is A r c = true -> List.length v = r -> (1 <= c)%nat ->
  broadcast f A (reshape_column v)
  = inr (tabulate r c (fun i j => f (entry A i j) (nth i v 0))).
Proof.
  intros HA Hv Hc. pose proof (shape_reshape_column v) as HB. rewrite Hv in HB.
  unfold broadcast.
  rewrite (shape_rows _ _ _ HA), (shape_rows _ _ _ HB).
  destruct r as [| r'].
  - apply shape_is_spec in HA as [HA _]. destruct A; [| discriminate].
    destruct v; [| discriminate]. reflexivity.
  - rewrite (shape_cols _ _ _ HA), (shape_cols _ _ _ HB) by lia.
    assert (Hdim : broadcast_dim c 1 = Some c).
    { unfold broadcast_dim. destruct (Nat.eqb_spec c 1); [now subst | reflexivity]. }
    rewrite Hdim. unfold broadcast_dim. rewrite Nat.eqb_refl. f_equal.
    apply tabulate_ext. intros i j Hi Hj.
    assert (Hi' : stretch (S r') i = i).
    { unfold stretch. destruct (Nat.eqb_spec (S r') 1); lia. }
    assert (Hj' : stretch c j = j).
    { unfold stretch. destruct (Nat.eqb_spec c 1); lia. }
    rewrite Hi', Hj'. cbn [stretch Nat.eqb]. now rewrite entry_reshape_column.
Qed.

Lemma nth_map_const {A : Type} (k d : R) (l : list A) (i : nat) :
  (i < List.length l)%nat -> nth i (map (fun _ => k) l) d = k.
Proof.
  revert i. induction l as [| a l IH]; intros [| i] Hi; cbn in *; try lia; auto.
  apply IH. lia.
Qed.

Lemma sum_ones (n : nat) : sum (map (fun _ : nat => 1) (seq 0 n)) = INR n.
Proof.
  generalize 0%nat. induction n as [| n IH]; intros s; [reflexivity |].
  cbn [seq map sum fold_right]. fold (sum (map (fun _ : nat => 1) (seq (S s) n))).
  rewrite IH, S_INR. lra.
Qed.

Lemma max_zeros (n : nat) :
  fold_right Rmax 0 (map (fun _ : nat => 0) (seq 0 n)) = 0.
Proof.
  generalize 0%nat. induction n as [| n IH]; intros s; [reflexivity |].
  cbn [seq map fold_right]. rewrite IH. apply Rmax_left; lra.
Qed.

Lemma sum_map_div (row : vec) (k : R) :
  sum (map (fun x => x / k) row) = sum row / k.
Proof.
  induction row as [| x row IH]; cbn [map sum fold_right].
  - unfold Rdiv. ring.
  - fold (sum (map (fun x => x / k) row)). fold (sum row). rewrite IH.
    unfold Rdiv. ring.
Qed.

(** With equal log weights every weight is [1 / num_samples]: each entry of
    the result is the sample at that place divided by the number of samples
    of the batch. *)
Lemma importance_samples_uniform (samples log_weight : mat) (r c : nat) :
  shape_is samples r c = true -> shape_is log_weight r c = true -> (1 <= c)%nat ->
  _compute_importance_samples samples log_weight log_weight
  = inr (map (map (fun x => x / INR c)) samples).
Proof.
  intros Hs Hw Hc. unfold _compute_importance_samples.
  rewrite (broadcast_same Rminus _ _ r c Hw Hw).
  rewrite (tabulate_ext r c _ (fun _ _ => 0))
    by (intros; apply Rminus_diag).
  assert (Hmax : max_axis1 (tabulate r c (fun _ _ => 0))
                 = inr (map (fun _ : nat => 0) (seq 0 r))).
  { unfold max_axis1, tabulate.
    match goal with
    | |- (if ?b then _ else _) = _ => assert (E : b = false)
    end.
    { apply not_true_is_false. intros H. apply existsb_exists in H as (row & Hrow & H).
      apply in_map_iff in Hrow as (i & <- & _).
      rewrite length_map, length_seq in H. apply Nat.eqb_eq in H. lia. }
    rewrite E. f_equal. rewrite map_map. apply map_ext. intros i.
    destruct c as [| c']; [lia |]. cbn [seq map hd]. 
    change (fold_right Rmax 0 (map (fun _ : nat => 0) (seq 0 (S c'))) = 0).
    apply max_zeros. }
  rewrite Hmax.
  rewrite (broadcast_column Rminus _ _ r c (shape_is_tabulate r c _))
    by (now rewrite ?length_map, ?length_seq).
  rewrite (tabulate_ext r c _ (fun _ _ => 0)).
  2:{ intros i j Hi Hj. rewrite entry_tabulate by assumption.
      rewrite nth_map_const by now rewrite length_seq. lra. }
  rewrite map_tabulate.
  rewrite (tabulate_ext r c _ (fun _ _ => 1)) by (intros; apply exp_0).
  rewrite (broadcast_same Rmult _ _ r c (shape_is_tabulate r c _) Hs).
  assert (Hsum : sum_axis1 (tabulate r c (fun _ _ => 1))
                 = map (fun _ : nat => INR c) (seq 0 r)).
  { unfold sum_axis1, tabulate. rewrite map_map. apply map_ext. intros i.
    apply sum_ones. }
  rewrite Hsum.
  rewrite (broadcast_column Rdiv _ _ r c (shape_is_tabulate r c _))
    by (now rewrite ?length_map, ?length_seq).
  f_equal. rewrite <- (map_entries (fun x => x / INR c) samples r c Hs).
  apply tabulate_ext. intros i j Hi Hj.
  rewrite !entry_tabulate by assumption.
  rewrite nth_map_const by now rewrite length_seq.
  unfold Rdiv. ring.
Qed.

Lemma combine_fst_snd {A B : Type} (l : list (A * B)) :
  combine (map fst l) (map snd l) = l.
Proof. induction l as [| [a b] l IH]; cbn; congruence. Qed.

(** The strategies that end in [-1*np.mean(loss_samples, axis=1)] return
    the negated sample mean. *)
Lemma elbo_loss_is_negated_mean (loss_samples : mat) :
  elbo_loss loss_samples = negated_sample_mean loss_samples.
Proof.
  unfold elbo_loss, negated_sample_mean, mean_axis1. rewrite map_map.
  apply map_ext. intros row. ring.
Qed.

(** The stratified strategy returns the sample mean itself. *)
Lemma selbo_loss_is_plain_mean (coefficients : vec) (loss_samples : ten3) (loss : vec) :
  selbo_loss coefficients loss_samples = inr loss ->
  exists per_sample,
    einsum_m_mab coefficients loss_samples = inr per_sample
    /\ loss = mean_axis1 per_sample
    /\ negated_sample_mean per_sample = map Ropp loss.
Proof.
  unfold selbo_loss. destruct (einsum_m_mab coefficients loss_samples) as [e | s];
    [discriminate |].
  intros H; injection H as <-. exists s. repeat split.
  unfold negated_sample_mean, mean_axis1. now rewrite map_map.
Qed.

End ArrayFacts.

(** ** The reductions *)

Import Numeric.
Local Open Scope R_scope.

(** C5: the loss of the stratified strategy is the mean over the sample axis
    of the per-sample estimates, not its negation. One component with
    coefficient 1 and the samples 2 and 4 in a single batch gives the loss 3,
    where the negated sample mean is -3, the value the [elbo] reduction
    returns on the same samples. *)
Theorem selbo_loss_is_not_negated :
  selbo_loss [1] [[[2; 4]]] = inr [3]
  /\ negated_sample_mean [[2; 4]] = [-3]
  /\ elbo_loss [[2; 4]] = [-3]
  /\ (exists loss loss_del_phi,
        _eval_selbo_reparameterisation [1] [[[2; 4]]] [[[2; 4]]] = inr (loss, loss_del_phi)
        /\ loss <> negated_sample_mean [[2; 4]]).
Proof.
  assert (H1 : selbo_loss [1] [[[2; 4]]] = inr [3]).
  { unfold selbo_loss, einsum_m_mab, tabulate, mean_axis1, mean, sum, entry. cbn.
    do 2 f_equal. lra. }
  assert (H2 : negated_sample_mean [[2; 4]] = [-3]).
  { unfold negated_sample_mean, mean, sum. cbn. f_equal. lra. }
  split; [exact H1 |]. split; [exact H2 |]. split.
  - now rewrite elbo_loss_is_negated_mean.
  - unfold _eval_selbo_reparameterisation. rewrite H1, H2.
    unfold selbo_loss_del_phi, einsum_m_mab. cbn [List.length Nat.eqb].
    eexists _, _. split; [reflexivity |].
    intros H. injection H as H. lra.
Qed.

(** The arithmetic of line 176 alone, over real numbers, on arrays handed
    in: with the coefficients 3/10 and 7/10 and the per-component arrays [g1]
    and [g2], the einsum has the shape of [g1] and its entry [(a, b)] is
    [3/10 * g1[a, b] + 7/10 * g2[a, b]]; for any number of components, the sum
    over the leading axis of coefficient times component entry. The function
    around it stops before this line, on the [NameError] of [self]. *)
Lemma selbo_gradient_is_weighted_sum (g1 g2 : mat) :
  selbo_loss_del_phi [3/10; 7/10] [g1; g2]
  = inr (tabulate (rows g1) (cols g1)
           (fun a b => 3/10 * entry g1 a b + 7/10 * entry g2 a b))
  /\ (forall l1 l2, exists loss,
        _eval_selbo_reparameterisation [3/10; 7/10] [l1; l2] [g1; g2]
        = inr (loss, tabulate (rows g1) (cols g1)
                       (fun a b => 3/10 * entry g1 a b + 7/10 * entry g2 a b)))
  /\ (forall weighted : list (R * mat),
        selbo_loss_del_phi (map fst weighted) (map snd weighted)
        = inr (tabulate (rows (hd [] (map snd weighted))) (cols (hd [] (map snd weighted)))
                 (fun a b => sum (map (fun cl => fst cl * entry (snd cl) a b) weighted)))).
Proof.
  assert (H : selbo_loss_del_phi [3/10; 7/10] [g1; g2]
              = inr (tabulate (rows g1) (cols g1)
                       (fun a b => 3/10 * entry g1 a b + 7/10 * entry g2 a b))).
  { unfold selbo_loss_del_phi, einsum_m_mab. cbn [List.length Nat.eqb hd combine].
    f_equal. apply tabulate_ext. intros a b _ _. cbn [map sum fold_right fst snd]. ring. }
  split; [exact H |]. split.
  - intros l1 l2. unfold _eval_selbo_reparameterisation. rewrite H.
    unfold selbo_loss, einsum_m_mab. cbn [List.length Nat.eqb]. eexists. reflexivity.
  - intros weighted. unfold selbo_loss_del_phi, einsum_m_mab.
    rewrite !length_map, Nat.eqb_refl. now rewrite combine_fst_snd.
Qed.

(** C8 as stated fails: for the one batch of samples 1 and 3 with equal log
    weights the returned entries are 1/2 and 3/2, not the sample mean 2. *)
Lemma importance_samples_not_sample_mean :
  ~ returns_sample_mean [[1; 3]] [[0; 0]].
Proof.
  intros H.
  pose proof (importance_samples_uniform [[1; 3]] [[0; 0]] 1 2
                eq_refl eq_refl (le_S _ _ (le_n 1))) as E.
  specialize (H _ E 0%nat 0%nat (le_n 1) (le_S _ _ (le_n 1))).
  unfold entry, mean, sum in H. cbn in H. lra.
Qed.

(** * Further properties of the evaluators *)

(** ** Computations that cannot return *)

Lemma never_returns_raise {A : Type} (e : exn) : never_returns (@raise A e).
Proof. intros l. now exists e, l. Qed.

Lemma never_returns_bind_l {A B : Type} (m : M A) (k : A -> M B) :
  never_returns m -> never_returns (bind m k).
Proof.
  intros Hm l. unfold bind. destruct (Hm l) as (e & l' & E). rewrite E. now exists e, l'.
Qed.

Lemma never_returns_bind_r {A B : Type} (m : M A) (k : A -> M B) :
  (forall a, never_returns (k a)) -> never_returns (bind m k).
Proof.
  intros Hk l. unfold bind. destruct (m l) as [[e | a] l'].
  - now exists e, l'.
  - apply Hk.
Qed.

(** ** ReverseKL.eval *)

(** Whatever values the three attributes hold, whatever the arguments and the
    collaborators, [ReverseKL.eval] ends in an exception and has invoked no
    operation of any collaborator. *)
Theorem ReverseKL_eval_never_returns_nor_calls
        (W : world) (jointdist use_reparameterisation method : value)
        (approx x num_samples : value) (l : log) :
  exists e,
    ReverseKL.eval W (ReverseKL.instance jointdist use_reparameterisation method)
                   approx x num_samples l = (inl e, l).
Proof.
  unfold ReverseKL.eval, ReverseKL.instance.
  unfold bind at 1. cbn [getattr assoc String.eqb Ascii.eqb Bool.eqb ret].
  unfold bind at 1.
  destruct (eq_str method "elbo").
  - unfold bind at 1. cbn [getattr assoc String.eqb Ascii.eqb Bool.eqb ret].
    destruct (truthy W use_reparameterisation); destruct num_samples; eexists; reflexivity.
  - unfold bind at 1. cbn [getattr assoc String.eqb Ascii.eqb Bool.eqb ret].
    destruct (eq_str method "selbo").
    + unfold bind at 1. cbn [getattr assoc String.eqb Ascii.eqb Bool.eqb ret].
      destruct (truthy W use_reparameterisation); destruct num_samples;
        eexists; reflexivity.
    + eexists; reflexivity.
Qed.

(** ** The private evaluators *)

(** None of [_eval_elbo_reparameterisation], [_eval_elbo_cv],
    [_eval_selbo_reparameterisation] of [ReverseKL] and
    [_eval_posterior_samples], [_eval_controlvariates] of [ForwardKL] can
    return a value, whatever they are given: each of them reads a name that is
    bound nowhere. *)
Theorem private_evaluators_never_return
        (W : world) (self approx phi x num_samples return_grad : value) :
  never_returns (ReverseKL._eval_elbo_reparameterisation W self approx phi x num_samples)
  /\ never_returns (ReverseKL._eval_elbo_cv W self approx phi x num_samples)
  /\ never_returns (ReverseKL._eval_selbo_reparameterisation W approx phi x num_samples)
  /\ never_returns (ForwardKL._eval_posterior_samples self approx phi x num_samples)
  /\ never_returns (ForwardKL._eval_controlvariates W self approx phi x num_samples
                                                    return_grad).
Proof.
  repeat apply conj.
  - unfold ReverseKL._eval_elbo_reparameterisation.
    repeat (apply never_returns_bind_r; intros ?). apply never_returns_raise.
  - unfold ReverseKL._eval_elbo_cv.
    repeat (apply never_returns_bind_r; intros ?). apply never_returns_raise.
  - unfold ReverseKL._eval_selbo_reparameterisation.
    repeat (apply never_returns_bind_r; intros ?). apply never_returns_raise.
  - apply never_returns_raise.
  - unfold ForwardKL._eval_controlvariates.
    repeat (apply never_returns_bind_r; intros ?). apply never_returns_raise.
Qed.

(** ** ForwardKL: construction and eval *)

(** Whatever [ForwardKL(...)] returns is an instance that carries the three
    attributes, and building it touches no collaborator. *)
Lemma ForwardKL_new_returns_instance
      (W : world) (pos : list value) (kw : list (string * value)) (l l' : log)
      (self : value) :
  ForwardKL.new W pos kw l = (inr self, l') ->
  l' = l /\ exists jointdist posterior_samples use_reparameterisation,
             self = ForwardKL.instance jointdist posterior_samples use_reparameterisation.
Proof.
  unfold ForwardKL.new, call_self.
  cbn [assoc lookup_class mro lookup_in class_members].
  cbv beta iota delta [ForwardKL_members assoc String.eqb Ascii.eqb Bool.eqb].
  unfold bind at 1, lift.
  destruct (bind_args _ (VInst C_ForwardKL [] :: pos) kw) as [e | env] eqn:E;
    [discriminate |].
  rewrite (bind_args_first _ _ _ _ _ _ _ E).
  intros H. injection H as <- <-. split; [reflexivity |]. now eexists _, _, _.
Qed.

Lemma ForwardKL_eval_raises_on_instance
      (W : world) (jointdist posterior_samples use_reparameterisation : value)
      (approx x num_samples : value) :
  never_returns
    (ForwardKL.eval W (ForwardKL.instance jointdist posterior_samples
                                          use_reparameterisation)
                    approx x num_samples).
Proof.
  unfold ForwardKL.eval. rewrite ForwardKL_guard_never_fires.
  do 3 (apply never_returns_bind_r; intros ?).
  apply never_returns_bind_r; intros [loss loss_del_phi].
  apply never_returns_bind_l.
  intros l. now exists (AttributeError "_eval_loss_del_params"), l.
Qed.

(** [ForwardKL.eval] never returns a result: on every instance carrying the
    three attributes, and for every way of constructing the instance and
    every world of collaborators, it ends in an exception, at the latest when
    it asks for [self._eval_loss_del_params], which no class defines. *)
Theorem ForwardKL_eval_never_returns
        (W : world) (approx x num_samples : value) :
  (forall jointdist posterior_samples use_reparameterisation,
      never_returns
        (ForwardKL.eval W (ForwardKL.instance jointdist posterior_samples
                                              use_reparameterisation)
                        approx x num_samples))
  /\ (forall pos kw, never_returns (ForwardKL.new_then_eval W pos kw approx x)).
Proof.
  split; [intros; apply ForwardKL_eval_raises_on_instance |].
  intros pos kw l. unfold ForwardKL.new_then_eval. unfold bind at 1.
  destruct (ForwardKL.new W pos kw l) as [[e | self] l'] eqn:E; [now exists e, l' |].
  apply ForwardKL_new_returns_instance in E as (-> & j & p & u & ->).
  unfold call_self.
  cbn [ForwardKL.instance assoc lookup_class mro lookup_in class_members].
  cbv beta iota delta [ForwardKL_members assoc String.eqb Ascii.eqb Bool.eqb].
  unfold bind at 1, lift.
  destruct (bind_args _ (_ :: [approx; x]) []) as [e | env] eqn:E; [now exists e, l |].
  rewrite (bind_args_first _ _ _ _ _ _ _ E).
  apply ForwardKL_eval_raises_on_instance.
Qed.

(** The [ValueError] of the entry test of [ForwardKL.eval] is out of reach:
    on whatever the constructor returns, for any arguments, the test finds
    both [joint] and [posterior_samples]. *)
Theorem ForwardKL_entry_test_unreachable
        (W : world) (pos : list value) (kw : list (string * value)) (l l' : log)
        (self : value) :
  ForwardKL.new W pos kw l = (inr self, l') ->
  forallb (fun attr => negb (hasattr W self attr)) ["joint"; "posterior_samples"] = false.
Proof.
  intros H. apply ForwardKL_new_returns_instance in H as (_ & j & p & u & ->).
  apply ForwardKL_guard_never_fires.
Qed.

Lemma ForwardKL_entry_test_unreachable_witness :
  forallb (fun attr =>
             negb (hasattr full_world (ForwardKL.instance VNone VNone (VBool false)) attr))
          ["joint"; "posterior_samples"] = false.
Proof.
  apply (ForwardKL_entry_test_unreachable
           full_world [] [] [] [] (ForwardKL.instance VNone VNone (VBool false))).
  reflexivity.
Defined.

(** ** Loss._compute_approx_del_phi_reparameterisation *)

(** Which operations of the approximating distribution are invoked: with
    [approx_is_mixture] false, the default, the two [_components] ones; the
    plain [logprob_del_1] and [logprob_del_2] only when [approx_is_mixture]
    holds. Each is called once, on [(theta, phi)], in this order. *)
Theorem approx_del_phi_operations_by_flag
        (W : world) (approx : string) (phi theta transform_del_phi : value)
        (approx_is_mixture : bool) (l : log) (d1 d2 : value) :
  let op1 := if approx_is_mixture then "logprob_del_1" else "logprob_del_1_components" in
  let op2 := if approx_is_mixture then "logprob_del_2" else "logprob_del_2_components" in
  w_has W approx op1 = true -> w_has W approx op2 = true ->
  w_call W approx op1 [theta; phi] [] = inr d1 ->
  w_call W approx op2 [theta; phi] [] = inr d2 ->
  snd (Loss._compute_approx_del_phi_reparameterisation
         W (VObj approx) phi theta transform_del_phi (VBool approx_is_mixture) l)
  = l ++ [Call approx op1 [theta; phi]; Call approx op2 [theta; phi]].
Proof.
  intros op1 op2 H1 H2 C1 C2.
  unfold Loss._compute_approx_del_phi_reparameterisation. cbn [truthy].
  destruct approx_is_mixture; subst op1 op2;
    cbv [bind call_method call_external record lift np np_lookup arith ret cop_name];
    rewrite H1, C1, H2, C2;
    cbn [mem existsb numpy_names String.eqb Ascii.eqb Bool.eqb orb];
    repeat match goal with
           | |- context [w_np W ?n ?p ?k] => destruct (w_np W n p k)
           | |- context [w_arith W ?n ?p ?k] => destruct (w_arith W n p k)
           end;
    cbn [snd]; now rewrite <- app_assoc.
Qed.

Lemma approx_del_phi_operations_by_flag_witness :
  snd (Loss._compute_approx_del_phi_reparameterisation
         full_world (VObj "approx") (VObj "phi") (VObj "theta") (VObj "jac")
         (VBool false) [])
  = [] ++ [Call "approx" "logprob_del_1_components" [VObj "theta"; VObj "phi"];
           Call "approx" "logprob_del_2_components" [VObj "theta"; VObj "phi"]].
Proof.
  apply (approx_del_phi_operations_by_flag
           full_world "approx" (VObj "phi") (VObj "theta") (VObj "jac") false []
           (VObj "approx.logprob_del_1_components")
           (VObj "approx.logprob_del_2_components")); reflexivity.
Defined.

(** With posterior samples supplied, [ForwardKL.eval] invokes [approx.phi]
    and nothing else: no operation of the joint distribution, no density of
    the approximating distribution. The call of [_eval_posterior_samples]
    passes two of its four arguments. *)
Theorem ForwardKL_eval_posterior_samples_calls_phi_only
        (W : world) (jointdist posterior_samples use_reparameterisation : value)
        (approx : string) (x num_samples : value) (l : log) :
  is_None posterior_samples = false ->
  w_has W approx "phi" = true ->
  ForwardKL.eval W (ForwardKL.instance jointdist posterior_samples use_reparameterisation)
                 (VObj approx) x num_samples l
  = (match w_call W approx "phi" [x] [] with
     | inl e => inl e
     | inr _ => inl (TypeError "missing required argument: x")
     end,
     l ++ [Call approx "phi" [x]]).
Proof.
  intros Hps Hphi.
  unfold ForwardKL.eval. rewrite ForwardKL_guard_never_fires.
  unfold bind at 1. unfold call_method, call_external. cbn [cop_name]. rewrite Hphi.
  unfold bind at 1, record, lift.
  destruct (w_call W approx "phi" [x] []) as [e | phi]; [reflexivity |].
  unfold bind at 1. cbn [ForwardKL.instance getattr assoc String.eqb Ascii.eqb Bool.eqb ret].
  unfold bind at 1. rewrite Hps. reflexivity.
Qed.

Lemma ForwardKL_eval_posterior_samples_calls_phi_only_witness :
  ForwardKL.eval full_world (ForwardKL.instance VNone (VObj "posterior") (VBool false))
                 (VObj "approx") (VObj "x") (VInt 1000) []
  = (match w_call full_world "approx" "phi" [VObj "x"] [] with
     | inl e => inl e
     | inr _ => inl (TypeError "missing required argument: x")
     end,
     [] ++ [Call "approx" "phi" [VObj "x"]]).
Proof.
  apply (ForwardKL_eval_posterior_samples_calls_phi_only
           full_world VNone (VObj "posterior") (VBool false) "approx" (VObj "x")
           (VInt 1000) []); reflexivity.
Defined.

(** ** Loss._compute_loss_del_params with a Jacobian *)

(** When the approximating distribution is an external object that has
    [phi_del_params], the lifting calls it once, with [x], and then fails:
    with the exception of that call, or else on [np.ndims]. It never returns. *)
Theorem compute_loss_del_params_with_jacobian_raises
        (W : world) (loss_del_phi x : value) (approxdist : string) (l : log) :
  w_has W approxdist "phi_del_params" = true ->
  Loss._compute_loss_del_params W loss_del_phi x (VObj approxdist) l
  = (match w_call W approxdist "phi_del_params" [x] [] with
     | inl e => inl e
     | inr _ => inl (AttributeError "ndims")
     end,
     l ++ [Call approxdist "phi_del_params" [x]]).
Proof.
  intros H. unfold Loss._compute_loss_del_params. cbn [hasattr]. rewrite H.
  cbn [negb]. unfold bind at 1. unfold call_method, call_external. cbn [cop_name].
  rewrite H. unfold bind at 1, record, lift.
  now destruct (w_call W approxdist "phi_del_params" [x] []).
Qed.

Lemma compute_loss_del_params_with_jacobian_raises_witness :
  Loss._compute_loss_del_params full_world (VObj "loss_del_phi") (VObj "x")
                                (VObj "approx") []
  = (match w_call full_world "approx" "phi_del_params" [VObj "x"] [] with
     | inl e => inl e
     | inr _ => inl (AttributeError "ndims")
     end,
     [] ++ [Call "approx" "phi_del_params" [VObj "x"]]).
Proof.
  apply (compute_loss_del_params_with_jacobian_raises
           full_world (VObj "loss_del_phi") (VObj "x") "approx" []).
  reflexivity.
Defined.

(** ** ForwardKL.__init__ *)

Lemma assoc_update_same {A : Type} (k : string) (v : A) (d : list (string * A)) :
  assoc k (update k v d) = Some v.
Proof.
  induction d as [| [k' v'] d IH]; cbn.
  - now rewrite String.eqb_refl.
  - destruct (String.eqb_spec k k'); cbn.
    + now rewrite String.eqb_refl.
    + destruct (String.eqb_spec k k'); [contradiction | exact IH].
Qed.

Lemma assoc_update_other {A : Type} (k k' : string) (v : A) (d : list (string * A)) :
  k' <> k -> assoc k' (update k v d) = assoc k' d.
Proof.
  intros Hk. induction d as [| [k0 v0] d IH]; cbn.
  - destruct (String.eqb_spec k' k); [contradiction | reflexivity].
  - destruct (String.eqb_spec k k0) as [-> | Hk0]; cbn.
    + destruct (String.eqb_spec k' k0); [contradiction | reflexivity].
    + destruct (String.eqb_spec k' k0); [reflexivity | exact IH].
Qed.

(** [ForwardKL.__init__] never fails on an instance and calls nothing; after
    it the three attributes read back as the arguments given, whatever the
    instance held before, and every other attribute is as it was. *)
Theorem ForwardKL_init_stores_arguments
        (c : class) (dict : list (string * value))
        (jointdist posterior_samples use_reparameterisation : value) (l : log) :
  exists dict',
    ForwardKL.__init__ (VInst c dict) jointdist posterior_samples use_reparameterisation l
    = (inr (VInst c dict'), l)
    /\ assoc "joint" dict' = Some jointdist
    /\ assoc "posterior_samples" dict' = Some posterior_samples
    /\ assoc "use_reparameterisation" dict' = Some use_reparameterisation
    /\ (forall name,
          name <> "joint" -> name <> "posterior_samples" ->
          name <> "use_reparameterisation" ->
          assoc name dict' = assoc name dict).
Proof.
  eexists. split; [reflexivity |]. repeat apply conj.
  - rewrite !assoc_update_other by discriminate. apply assoc_update_same.
  - rewrite assoc_update_other by discriminate. apply assoc_update_same.
  - apply assoc_update_same.
  - intros name H1 H2 H3. now rewrite !assoc_update_other.
Qed.

(** * Further properties of the array arithmetic *)

Section ImportanceFacts.

Import Numeric.
Local Open Scope R_scope.

Lemma nth_map_seq {A : Type} (f : nat -> A) (n i : nat) (d : A) :
  (i < n)%nat -> nth i (map f (seq 0 n)) d = f i.
Proof.
  intros Hi. rewrite nth_indep with (d' := f 0%nat) by now rewrite length_map, length_seq.
  rewrite (map_nth f (seq 0 n) 0%nat i). now rewrite seq_nth.
Qed.

Lemma sum_map_mult_r {A : Type} (f : A -> R) (t : R) (l : list A) :
  sum (map (fun k => f k * t) l) = sum (map f l) * t.
Proof.
  induction l as [| a l IH]; cbn [map sum fold_right]; [ring |].
  fold (sum (map (fun k => f k * t) l)). fold (sum (map f l)). rewrite IH. ring.
Qed.

Lemma sum_map_mult_l {A : Type} (f : A -> R) (t : R) (l : list A) :
  sum (map (fun k => t * f k) l) = t * sum (map f l).
Proof.
  induction l as [| a l IH]; cbn [map sum fold_right]; [ring |].
  fold (sum (map (fun k => t * f k) l)). fold (sum (map f l)). rewrite IH. ring.
Qed.

Lemma sum_exp_pos {A : Type} (f : A -> R) (l : list A) :
  l <> [] -> 0 < sum (map (fun k => exp (f k)) l).
Proof.
  destruct l as [| a l]; [congruence | intros _].
  revert a. induction l as [| b l IH]; intros a; cbn [map sum fold_right].
  - pose proof (exp_pos (f a)). lra.
  - pose proof (exp_pos (f a)). specialize (IH b). cbn [map sum fold_right] in IH. lra.
Qed.

Lemma seq_nonempty (c : nat) : (1 <= c)%nat -> seq 0 c <> [].
Proof. destruct c; [lia | discriminate]. Qed.

Lemma max_axis1_tabulate (r c : nat) (f : nat -> nat -> R) :
  (1 <= c)%nat ->
  max_axis1 (tabulate r c f)
  = inr (map (fun i => fold_right Rmax (hd 0 (map (f i) (seq 0 c))) (map (f i) (seq 0 c)))
             (seq 0 r)).
Proof.
  intros Hc. unfold max_axis1, tabulate.
  match goal with
  | |- (if ?b then _ else _) = _ => assert (E : b = false)
  end.
  { apply not_true_is_false. intros H. apply existsb_exists in H as (row & Hrow & H).
    apply in_map_iff in Hrow as (i & <- & _).
    rewrite length_map, length_seq in H. apply Nat.eqb_eq in H. lia. }
  rewrite E. now rewrite map_map.
Qed.

Lemma sum_axis1_tabulate (r c : nat) (f : nat -> nat -> R) :
  sum_axis1 (tabulate r c f) = map (fun i => sum (map (f i) (seq 0 c))) (seq 0 r).
Proof. unfold sum_axis1, tabulate. now rewrite map_map. Qed.

(** Subtracting the per-batch maximum changes nothing in exact arithmetic:
    the entry [(i, j)] of the result is the sample times the softmax weight
    [exp(lw[i,j]) / sum_k exp(lw[i,k])], [lw = joint_logprob - approx_logprob]. *)
Lemma importance_samples_closed_form (samples approx_logprob joint_logprob : mat)
      (r c : nat) :
  shape_is samples r c = true -> shape_is approx_logprob r c = true ->
  shape_is joint_logprob r c = true -> (1 <= c)%nat ->
  _compute_importance_samples samples approx_logprob joint_logprob
  = inr (tabulate r c (fun i j =>
           entry samples i j
           * (exp (entry joint_logprob i j - entry approx_logprob i j)
              / sum (map (fun k => exp (entry joint_logprob i k - entry approx_logprob i k))
                         (seq 0 c))))).
Proof.
  intros Hs Ha Hb Hc. unfold _compute_importance_samples.
  rewrite (broadcast_same Rminus _ _ r c Hb Ha).
  rewrite (max_axis1_tabulate r c _ Hc).
  set (lw := fun i j => entry joint_logprob i j - entry approx_logprob i j).
  set (M := fun i => fold_right Rmax (hd 0 (map (lw i) (seq 0 c))) (map (lw i) (seq 0 c))).
  rewrite (broadcast_column Rminus _ _ r c (shape_is_tabulate r c _))
    by (now rewrite ?length_map, ?length_seq).
  rewrite (tabulate_ext r c _ (fun i j => lw i j - M i)).
  2:{ intros i j Hi Hj. rewrite entry_tabulate by assumption.
      now rewrite nth_map_seq. }
  rewrite map_tabulate.
  rewrite (broadcast_same Rmult _ _ r c (shape_is_tabulate r c _) Hs).
  rewrite sum_axis1_tabulate.
  rewrite (broadcast_column Rdiv _ _ r c (shape_is_tabulate r c _))
    by (now rewrite ?length_map, ?length_seq).
  f_equal. apply tabulate_ext. intros i j Hi Hj.
  rewrite !entry_tabulate by assumption. rewrite nth_map_seq by assumption.
  assert (Hshift : forall k, exp (lw i k - M i) = exp (lw i k) * exp (- M i)).
  { intros k. unfold Rminus. apply exp_plus. }
  rewrite (map_ext _ _ (fun k => Hshift k)), sum_map_mult_r, Hshift.
  pose proof (sum_exp_pos (lw i) (seq 0 c) (seq_nonempty c Hc)) as Hpos.
  pose proof (exp_pos (- M i)) as HM.
  change (exp (entry joint_logprob i j - entry approx_logprob i j)) with (exp (lw i j)).
  change (sum (map (fun k => exp (entry joint_logprob i k - entry approx_logprob i k))
                   (seq 0 c)))
    with (sum (map (fun k => exp (lw i k)) (seq 0 c))).
  field. split; lra.
Qed.

(** In exact arithmetic, over real log weights, the weights of a batch sum
    to one: samples that all equal [k] are returned as rows that sum to [k].
    Rounding is not modelled. *)
Theorem importance_samples_reproduce_constants
        (approx_logprob joint_logprob : mat) (r c : nat) (k : R) :
  shape_is approx_logprob r c = true -> shape_is joint_logprob r c = true ->
  (1 <= c)%nat ->
  exists out,
    _compute_importance_samples (tabulate r c (fun _ _ => k)) approx_logprob joint_logprob
    = inr out
    /\ sum_axis1 out = map (fun _ => k) (seq 0 r).
Proof.
  intros Ha Hb Hc.
  rewrite (importance_samples_closed_form _ _ _ r c (shape_is_tabulate r c _) Ha Hb Hc).
  eexists. split; [reflexivity |].
  rewrite sum_axis1_tabulate. apply map_ext_in. intros i Hi. apply in_seq in Hi.
  set (lw := fun j => entry joint_logprob i j - entry approx_logprob i j).
  rewrite (map_ext_in _ (fun j => k * (exp (lw j) * / sum (map (fun j => exp (lw j)) (seq 0 c))))).
  2:{ intros j Hj. apply in_seq in Hj. rewrite entry_tabulate by lia. reflexivity. }
  rewrite sum_map_mult_l, sum_map_mult_r.
  pose proof (sum_exp_pos lw (seq 0 c) (seq_nonempty c Hc)) as Hpos.
  field. lra.
Qed.

Lemma importance_samples_reproduce_constants_witness :
  exists out,
    _compute_importance_samples (tabulate 2 2 (fun _ _ => 5)) [[0; 1]; [5; 2]]
                                [[3; 1]; [0; 2]]
    = inr out
    /\ sum_axis1 out = map (fun _ => 5) (seq 0 2).
Proof.
  apply (importance_samples_reproduce_constants [[0; 1]; [5; 2]] [[3; 1]; [0; 2]] 2 2 5).
  - reflexivity.
  - reflexivity.
  - lia.
Defined.

(** In exact arithmetic the normalising constant of the target does not
    matter: adding a per-batch constant to [joint_logprob] leaves the result
    unchanged. Rounding is not modelled. *)
Theorem importance_samples_shift_invariant
        (samples approx_logprob joint_logprob shifted : mat) (r c : nat)
        (shift : nat -> R) :
  shape_is samples r c = true -> shape_is approx_logprob r c = true ->
  shape_is joint_logprob r c = true -> shape_is shifted r c = true ->
  (1 <= c)%nat ->
  (forall i j, (i < r)%nat -> (j < c)%nat ->
               entry shifted i j = entry joint_logprob i j + shift i) ->
  _compute_importance_samples samples approx_logprob shifted
  = _compute_importance_samples samples approx_logprob joint_logprob.
Proof.
  intros Hs Ha Hb Hb' Hc Hshift.
  rewrite (importance_samples_closed_form _ _ _ r c Hs Ha Hb' Hc).
  rewrite (importance_samples_closed_form _ _ _ r c Hs Ha Hb Hc).
  f_equal. apply tabulate_ext. intros i j Hi Hj.
  set (lw := fun k => entry joint_logprob i k - entry approx_logprob i k).
  assert (H : forall k, (k < c)%nat ->
                        exp (entry shifted i k - entry approx_logprob i k)
                        = exp (lw k) * exp (shift i)).
  { intros k Hk. rewrite Hshift by assumption. rewrite <- exp_plus. f_equal.
    unfold lw. ring. }
  rewrite (H j Hj).
  rewrite (map_ext_in _ (fun k => exp (lw k) * exp (shift i)))
    by (intros k Hk; apply in_seq in Hk; apply H; lia).
  rewrite sum_map_mult_r.
  pose proof (sum_exp_pos lw (seq 0 c) (seq_nonempty c Hc)) as Hpos.
  pose proof (exp_pos (shift i)) as HM.
  change (exp (entry joint_logprob i j - entry approx_logprob i j)) with (exp (lw j)).
  change (sum (map (fun k => exp (entry joint_logprob i k - entry approx_logprob i k))
                   (seq 0 c)))
    with (sum (map (fun k => exp (lw k)) (seq 0 c))).
  field. split; lra.
Qed.

Lemma importance_samples_shift_invariant_witness :
  _compute_importance_samples [[1; 3]] [[0; 1]] [[12; 11]]
  = _compute_importance_samples [[1; 3]] [[0; 1]] [[2; 1]].
Proof.
  apply (importance_samples_shift_invariant
           [[1; 3]] [[0; 1]] [[2; 1]] [[12; 11]] 1 2 (fun _ => 10));
    try reflexivity; try lia.
  intros [| i] [| [| j]] Hi Hj; try lia; unfold entry; cbn; lra.
Defined.

(** With no samples in a batch the weighting fails: the maximum of an empty
    row is refused. *)
Theorem importance_samples_empty_sample_axis
        (samples approx_logprob joint_logprob : mat) (r : nat) :
  shape_is approx_logprob r 0 = true -> shape_is joint_logprob r 0 = true ->
  (1 <= r)%nat ->
  _compute_importance_samples samples approx_logprob joint_logprob
  = inl (ValueError "zero-size array to reduction operation maximum").
Proof.
  intros Ha Hb Hr. unfold _compute_importance_samples.
  rewrite (broadcast_same Rminus _ _ r 0 Hb Ha).
  destruct r as [| r']; [lia |]. reflexivity.
Qed.

Lemma importance_samples_empty_sample_axis_witness :
  _compute_importance_samples [[]; []] [[]; []] [[]; []]
  = inl (ValueError "zero-size array to reduction operation maximum").
Proof.
  apply (importance_samples_empty_sample_axis [[]; []] [[]; []] [[]; []] 2).
  - reflexivity.
  - reflexivity.
  - lia.
Defined.

End ImportanceFacts.

(** The entry [(i, j)] of the result of [_compute_importance_samples] is the
    sample times [exp(lw[i,j]) / sum_k exp(lw[i,k])] with
    [lw = joint_logprob - approx_logprob]: in exact arithmetic the maximum
    that is subtracted before exponentiating cancels. *)
Theorem importance_samples_are_softmax_weighted
        (samples approx_logprob joint_logprob : Numeric.mat) (r c : nat) :
  Numeric.shape_is samples r c = true -> Numeric.shape_is approx_logprob r c = true ->
  Numeric.shape_is joint_logprob r c = true -> (1 <= c)%nat ->
  Numeric._compute_importance_samples samples approx_logprob joint_logprob
  = inr (Numeric.tabulate r c (fun i j =>
           (Numeric.entry samples i j
            * (exp (Numeric.entry joint_logprob i j - Numeric.entry approx_logprob i j)
               / Numeric.sum
                   (map (fun k => exp (Numeric.entry joint_logprob i k
                                       - Numeric.entry approx_logprob i k))
                        (seq 0 c))))%R)).
Proof. apply importance_samples_closed_form. Qed.

Lemma importance_samples_are_softmax_weighted_witness :
  Numeric._compute_importance_samples [[1; 3]%R] [[0; 1]%R] [[2; 1]%R]
  = inr (Numeric.tabulate 1 2 (fun i j =>
           (Numeric.entry [[1; 3]] i j
            * (exp (Numeric.entry [[2; 1]] i j - Numeric.entry [[0; 1]] i j)
               / Numeric.sum
                   (map (fun k => exp (Numeric.entry [[2; 1]] i k
                                       - Numeric.entry [[0; 1]] i k))
                        (seq 0 2))))%R)).
Proof.
  apply (importance_samples_are_softmax_weighted [[1; 3]%R] [[0; 1]%R] [[2; 1]%R] 1 2).
  - reflexivity.
  - reflexivity.
  - reflexivity.
  - lia.
Defined.

Section StratifiedFacts.

Import Numeric.
Local Open Scope R_scope.

Lemma tabulate_self (g : mat) (a b : nat) :
  shape_is g a b = true -> tabulate (rows g) (cols g) (entry g) = g.
Proof.
  intros H. destruct a as [| a'].
  - apply shape_is_spec in H as [H _]. now destruct g.
  - rewrite (shape_rows _ _ _ H), (shape_cols _ _ _ H) by lia. now apply tabulate_entry.
Qed.

Lemma shape_is_tabulate_like (g : mat) (a b : nat) (f : nat -> nat -> R) :
  shape_is g a b = true -> shape_is (tabulate (rows g) (cols g) f) a b = true.
Proof.
  intros H. destruct a as [| a'].
  - apply shape_is_spec in H as [H _]. now destruct g.
  - rewrite (shape_rows _ _ _ H), (shape_cols _ _ _ H) by lia. apply shape_is_tabulate.
Qed.

Lemma weighted_sum_identical (c : vec) (g : mat) (i j : nat) :
  sum (map (fun cl => fst cl * entry (snd cl) i j) (combine c (map (fun _ => g) c)))
  = sum c * entry g i j.
Proof.
  induction c as [| x c IH]; cbn [map combine sum fold_right fst snd]; [ring |].
  fold (sum c).
  fold (sum (map (fun cl => fst cl * entry (snd cl) i j) (combine c (map (fun _ => g) c)))).
  rewrite IH. ring.
Qed.

Lemma einsum_identical_components (c : vec) (g : mat) (a b : nat) :
  shape_is g a b = true -> c <> [] -> sum c = 1 ->
  einsum_m_mab c (map (fun _ => g) c) = inr g.
Proof.
  intros Hg Hc Hsum. unfold einsum_m_mab. rewrite length_map, Nat.eqb_refl. f_equal.
  assert (Hhd : hd [] (map (fun _ : R => g) c) = g)
    by (destruct c; [congruence | reflexivity]).
  rewrite Hhd. rewrite <- (tabulate_self g a b Hg) at 3.
  apply tabulate_ext. intros i j _ _.
  rewrite (weighted_sum_identical c g i j), Hsum. ring.
Qed.

(** In exact arithmetic, the arithmetic of lines 175-176 on a mixture whose
    components all carry the same per-sample array [g], with coefficients
    that sum to one, gives [g] back as the gradient and the sample means of
    [g] as the loss. Rounding is not modelled. *)
Theorem selbo_identical_components (coefficients : vec) (g : mat) (a b : nat) :
  shape_is g a b = true -> coefficients <> [] -> sum coefficients = 1 ->
  selbo_loss_del_phi coefficients (map (fun _ => g) coefficients) = inr g
  /\ selbo_loss coefficients (map (fun _ => g) coefficients) = inr (mean_axis1 g).
Proof.
  intros Hg Hc Hsum. unfold selbo_loss_del_phi, selbo_loss.
  now rewrite (einsum_identical_components coefficients g a b Hg Hc Hsum).
Qed.

Lemma selbo_identical_components_witness :
  selbo_loss_del_phi [3/10; 7/10] (map (fun _ => [[1; 2]; [3; 4]]) [3/10; 7/10])
  = inr [[1; 2]; [3; 4]]
  /\ selbo_loss [3/10; 7/10] (map (fun _ => [[1; 2]; [3; 4]]) [3/10; 7/10])
     = inr (mean_axis1 [[1; 2]; [3; 4]]).
Proof.
  apply (selbo_identical_components [3/10; 7/10] [[1; 2]; [3; 4]] 2 2).
  - reflexivity.
  - discriminate.
  - unfold sum. cbn [fold_right]. lra.
Defined.

(** For a mixture of one component with coefficient one, the loss of the
    stratified strategy is, entry by entry, the opposite of the loss that the
    [elbo] reduction returns on the same samples. *)
Theorem selbo_single_component_loss_opposes_elbo_loss (loss_samples : mat) (a b : nat) :
  shape_is loss_samples a b = true ->
  selbo_loss [1] [loss_samples] = inr (map Ropp (elbo_loss loss_samples)).
Proof.
  intros H. unfold selbo_loss.
  change [loss_samples] with (map (fun _ : R => loss_samples) [1]).
  rewrite (einsum_identical_components [1] loss_samples a b H);
    [| discriminate | unfold sum; cbn [fold_right]; lra].
  f_equal. unfold elbo_loss, mean_axis1. rewrite !map_map.
  apply map_ext. intros row. ring.
Qed.

Lemma selbo_single_component_loss_opposes_elbo_loss_witness :
  selbo_loss [1] [[[2; 4]; [1; 5]]] = inr (map Ropp (elbo_loss [[2; 4]; [1; 5]])).
Proof.
  apply (selbo_single_component_loss_opposes_elbo_loss [[2; 4]; [1; 5]] 2 2).
  reflexivity.
Defined.

(** The stratified reduction keeps the sample axis in its gradient: with as
    many coefficients as components and first components of shape
    [(num_batch, num_samples)], the loss has [num_batch] entries and the
    gradient has shape [(num_batch, num_samples)]. *)
Theorem selbo_output_shapes (coefficients : vec) (loss_samples loss_del_phi_samples : ten3)
        (a b b' : nat) :
  List.length coefficients = List.length loss_samples ->
  List.length coefficients = List.length loss_del_phi_samples ->
  shape_is (hd [] loss_samples) a b = true ->
  shape_is (hd [] loss_del_phi_samples) a b' = true ->
  exists loss loss_del_phi,
    _eval_selbo_reparameterisation coefficients loss_samples loss_del_phi_samples
    = inr (loss, loss_del_phi)
    /\ List.length loss = a
    /\ shape_is loss_del_phi a b' = true.
Proof.
  intros H1 H2 Hs Hg.
  unfold _eval_selbo_reparameterisation, selbo_loss, selbo_loss_del_phi, einsum_m_mab.
  rewrite H1, Nat.eqb_refl. rewrite <- H1, H2, Nat.eqb_refl.
  eexists _, _. split; [reflexivity |]. split.
  - unfold mean_axis1. rewrite length_map.
    pose proof (shape_is_tabulate_like _ a b
                  (fun i j => sum (map (fun cl => fst cl * entry (snd cl) i j)
                                       (combine coefficients loss_samples))) Hs) as H.
    now apply shape_is_spec in H.
  - now apply shape_is_tabulate_like.
Qed.

Lemma selbo_output_shapes_witness :
  exists loss loss_del_phi,
    _eval_selbo_reparameterisation [3/10; 7/10] [[[1; 2; 3]]; [[4; 5; 6]]]
                                   [[[1; 2; 3]]; [[4; 5; 6]]]
    = inr (loss, loss_del_phi)
    /\ List.length loss = 1%nat
    /\ shape_is loss_del_phi 1 3 = true.
Proof.
  apply (selbo_output_shapes [3/10; 7/10] [[[1; 2; 3]]; [[4; 5; 6]]]
                             [[[1; 2; 3]]; [[4; 5; 6]]] 1 3 3); reflexivity.
Defined.

(** The [elbo] reduction removes the sample axis: for per-sample gradients of
    shape [(num_batch, num_samples, p)] with at least one sample, the loss has
    one entry per batch row and the gradient has shape [(num_batch, p)]. *)
Theorem elbo_output_shapes (loss_samples : mat) (loss_del_phi_samples : ten3)
        (a b p : nat) :
  List.length loss_samples = a ->
  List.length loss_del_phi_samples = a ->
  Forall (fun slab => shape_is slab b p = true) loss_del_phi_samples ->
  (1 <= b)%nat ->
  List.length (fst (_eval_elbo_reparameterisation loss_samples loss_del_phi_samples)) = a
  /\ shape_is (snd (_eval_elbo_reparameterisation loss_samples loss_del_phi_samples)) a p
     = true.
Proof.
  intros Hl Hg Hall Hb. cbn [_eval_elbo_reparameterisation fst snd]. split.
  - unfold elbo_loss, mean_axis1. now rewrite !length_map.
  - apply shape_is_spec. unfold elbo_loss_del_phi, mean_axis1_3. split.
    + now rewrite !length_map.
    + rewrite Forall_forall in *. intros row Hrow.
      apply in_map_iff in Hrow as (row' & <- & Hrow').
      apply in_map_iff in Hrow' as (slab & <- & Hslab).
      rewrite !length_map, length_seq.
      apply (shape_cols slab b p); [now apply Hall | lia].
Qed.

Lemma elbo_output_shapes_witness :
  List.length (fst (_eval_elbo_reparameterisation
                      [[1; 2]; [3; 4]]
                      [[[1; 2; 3]; [4; 5; 6]]; [[7; 8; 9]; [1; 1; 1]]])) = 2%nat
  /\ shape_is (snd (_eval_elbo_reparameterisation
                      [[1; 2]; [3; 4]]
                      [[[1; 2; 3]; [4; 5; 6]]; [[7; 8; 9]; [1; 1; 1]]])) 2 3
     = true.
Proof.
  apply (elbo_output_shapes [[1; 2]; [3; 4]]
                            [[[1; 2; 3]; [4; 5; 6]]; [[7; 8; 9]; [1; 1; 1]]] 2 2 3).
  - reflexivity.
  - reflexivity.
  - repeat constructor.
  - lia.
Defined.

End StratifiedFacts.

(** * The covariance of the control-variate reduction *)

Section CovarianceFacts.

Import Numeric Covariance.
Local Open Scope R_scope.

Lemma tabulate_nil (c : nat) (f : nat -> nat -> R) : tabulate 0 c f = [].
Proof. reflexivity. Qed.

Lemma tabulate_like_tabulate (r c : nat) (f g : nat -> nat -> R) :
  tabulate (rows (tabulate r c f)) (cols (tabulate r c f)) g = tabulate r c g.
Proof.
  destruct r as [| r']; [reflexivity |].
  rewrite (shape_rows _ _ _ (shape_is_tabulate (S r') c f)).
  now rewrite (shape_cols _ _ _ (shape_is_tabulate (S r') c f)) by lia.
Qed.

Lemma tabulate3_ext (a b c : nat) (f g : nat -> nat -> nat -> R) :
  (forall x y k, (x < a)%nat -> (y < b)%nat -> (k < c)%nat -> f x y k = g x y k) ->
  tabulate3 a b c f = tabulate3 a b c g.
Proof.
  intros H. unfold tabulate3. apply map_ext_in. intros x Hx. apply in_seq in Hx.
  apply tabulate_ext. intros y k Hy Hk. apply H; lia.
Qed.

Lemma entry3_tabulate3 (a b c : nat) (f : nat -> nat -> nat -> R) (x y k : nat) :
  (x < a)%nat -> (y < b)%nat -> (k < c)%nat ->
  entry3 (tabulate3 a b c f) x y k = f x y k.
Proof.
  intros Hx Hy Hk. unfold entry3, tabulate3.
  rewrite nth_map_seq by assumption. now apply entry_tabulate.
Qed.

Lemma shape3_is_spec (T : ten3) (a b c : nat) :
  shape3_is T a b c = true <->
  List.length T = a /\ Forall (fun slab => shape_is slab b c = true) T.
Proof.
  unfold shape3_is. rewrite andb_true_iff, Nat.eqb_eq, forallb_forall, Forall_forall.
  tauto.
Qed.

(** The axis lengths of an array with at least one batch row and one sample. *)
Lemma shape3_dims (T : ten3) (a b c : nat) :
  shape3_is T a b c = true -> (1 <= a)%nat -> (1 <= b)%nat ->
  dim0 T = a /\ dim1 T = b /\ dim2 T = c.
Proof.
  intros H Ha Hb. apply shape3_is_spec in H as [Hlen Hall].
  destruct T as [| slab T]; cbn in Hlen; [lia |].
  inversion Hall as [| ? ? Hslab _]; subst.
  unfold dim0, dim1, dim2. cbn [hd List.length]. repeat split.
  - now apply (shape_rows slab b c).
  - now apply (shape_cols slab b c).
Qed.

Lemma dims_tabulate3 (a b c : nat) (f : nat -> nat -> nat -> R) :
  (1 <= a)%nat -> (1 <= b)%nat ->
  dim0 (tabulate3 a b c f) = a /\ dim1 (tabulate3 a b c f) = b
  /\ dim2 (tabulate3 a b c f) = c.
Proof.
  intros Ha Hb. apply shape3_dims; try assumption.
  apply shape3_is_spec. unfold tabulate3. split.
  - now rewrite length_map, length_seq.
  - apply Forall_forall. intros slab Hslab. apply in_map_iff in Hslab as (x & <- & _).
    apply shape_is_tabulate.
Qed.

(** [mean_axis1_4] of a tabulated array. *)
Lemma mean_axis1_4_tabulate4 (a b i j : nat) (F : nat -> nat -> nat -> nat -> R) :
  (1 <= b)%nat ->
  mean_axis1_4 (tabulate4 a b i j F)
  = tabulate3 a i j (fun x k l => mean (map (fun y => F x y k l) (seq 0 b))).
Proof.
  intros Hb. unfold mean_axis1_4, tabulate4. rewrite length_map, length_seq.
  destruct a as [| a']; [reflexivity |].
  cbn [seq map hd]. fold (tabulate4 (S a') b i j F).
  change (map (fun x => tabulate3 b i j (F x)) (seq 1 a'))
    with (tl (tabulate4 (S a') b i j F)).
  change (tabulate3 b i j (F 0%nat) :: tl (tabulate4 (S a') b i j F))
    with (tabulate4 (S a') b i j F).
  destruct i as [| i'].
  - unfold tabulate3. apply map_ext. intros x.
    unfold dim1, tabulate3. destruct b; [lia |]. reflexivity.
  - destruct (dims_tabulate3 b (S i') j (F 0%nat) Hb ltac:(lia)) as (D0 & D1 & D2).
    rewrite D0, D1, D2. apply tabulate3_ext. intros x k l Hx Hk Hl.
    f_equal. apply map_ext_in. intros y Hy. apply in_seq in Hy.
    unfold entry4, tabulate4. rewrite nth_map_seq by assumption.
    apply entry3_tabulate3; lia.
Qed.

(** What [_compute_covariance] computes on arrays of shapes [(a, b, i)] and
    [(a, b, j)] with at least one sample. *)
Lemma covariance_closed_form (val_1 val_2 : ten3) (a b i j : nat) (subtract : bool) :
  shape3_is val_1 a b i = true -> shape3_is val_2 a b j = true -> (1 <= b)%nat ->
  _compute_covariance val_1 val_2 subtract
  = inr (tabulate3 a i j (fun x k l =>
           mean (map (fun y =>
                        entry3 val_1 x y k
                        * (entry3 val_2 x y l
                           - if subtract
                             then mean (map (fun y' => entry3 val_2 x y' l) (seq 0 b))
                             else 0))
                     (seq 0 b)))).
Proof.
  intros H1 H2 Hb. destruct a as [| a'].
  - apply shape3_is_spec in H1 as [L1 _]. apply shape3_is_spec in H2 as [L2 _].
    destruct val_1; [| discriminate]. destruct val_2; [| discriminate].
    now destruct subtract.
  - destruct (shape3_dims _ _ _ _ H1 ltac:(lia) Hb) as (A0 & A1 & A2).
    destruct (shape3_dims _ _ _ _ H2 ltac:(lia) Hb) as (B0 & B1 & B2).
    unfold _compute_covariance.
    set (v2 := if subtract then subtract_sample_mean val_2 else val_2).
    assert (Hv2 : dim0 v2 = S a' /\ dim1 v2 = b /\ dim2 v2 = j
                  /\ forall x y l, (x < S a')%nat -> (y < b)%nat -> (l < j)%nat ->
                       entry3 v2 x y l
                       = entry3 val_2 x y l
                         - if subtract
                           then mean (map (fun y' => entry3 val_2 x y' l) (seq 0 b))
                           else 0).
    { unfold v2. destruct subtract.
      - unfold subtract_sample_mean. rewrite B0, B1, B2.
        destruct (dims_tabulate3 (S a') b j
                    (fun x y k => entry3 val_2 x y k
                                  - mean (map (fun y' => entry3 val_2 x y' k) (seq 0 b)))
                    ltac:(lia) Hb) as (D0 & D1 & D2).
        repeat split; try assumption. intros x y l Hx Hy Hl.
        now rewrite entry3_tabulate3.
      - repeat split; try assumption. intros. ring. }
    destruct Hv2 as (V0 & V1 & V2 & Hentry).
    unfold einsum_abi_abj. rewrite A0, A1, A2, V0, V1, V2.
    unfold broadcast_dim. rewrite !Nat.eqb_refl.
    rewrite mean_axis1_4_tabulate4 by assumption.
    f_equal. apply tabulate3_ext. intros x k l Hx Hk Hl.
    f_equal. apply map_ext_in. intros y Hy. apply in_seq in Hy.
    assert (Sx : stretch (S a') x = x).
    { unfold stretch. destruct (Nat.eqb_spec (S a') 1); lia. }
    assert (Sy : stretch b y = y).
    { unfold stretch. destruct (Nat.eqb_spec b 1); lia. }
    rewrite Sx, Sy. rewrite Hentry by lia. reflexivity.
Qed.

Lemma sum_nonneg {A : Type} (f : A -> R) (l : list A) :
  (forall a, 0 <= f a) -> 0 <= sum (map f l).
Proof.
  intros H. induction l as [| a l IH]; cbn [map sum fold_right]; [lra |].
  fold (sum (map f l)). specialize (H a). lra.
Qed.

Lemma sum_product_centred {A : Type} (u w : A -> R) (m : R) (l : list A) :
  sum (map (fun y => u y * (w y - m)) l)
  = sum (map (fun y => u y * w y) l) - m * sum (map u l).
Proof.
  induction l as [| a l IH]; cbn [map sum fold_right]; [ring |].
  fold (sum (map (fun y => u y * (w y - m)) l)).
  fold (sum (map (fun y => u y * w y) l)). fold (sum (map u l)).
  rewrite IH. ring.
Qed.

Lemma sum_centred {A : Type} (w : A -> R) (m : R) (l : list A) :
  sum (map (fun y => w y - m) l) = sum (map w l) - m * INR (List.length l).
Proof.
  induction l as [| a l IH]; [cbn; ring |].
  cbn [map sum fold_right]. fold (sum (map (fun y => w y - m) l)). fold (sum (map w l)).
  rewrite IH. change (List.length (a :: l)) with (S (List.length l)). rewrite S_INR. ring.
Qed.

Lemma INR_length_seq_pos (b : nat) : (1 <= b)%nat -> 0 < INR (List.length (seq 0 b)).
Proof. intros Hb. rewrite length_seq. apply lt_0_INR. lia. Qed.

(** The covariance of an array with itself, as [_apply_controlvariates] forms
    [var], is symmetric in its last two axes and has a diagonal that is not
    negative. *)
Theorem covariance_with_itself_symmetric (val : ten3) (a b i : nat) :
  shape3_is val a b i = true -> (1 <= b)%nat ->
  exists var,
    _compute_covariance val val false = inr var
    /\ (forall x k l, (x < a)%nat -> (k < i)%nat -> (l < i)%nat ->
                      entry3 var x k l = entry3 var x l k)
    /\ (forall x k, (x < a)%nat -> (k < i)%nat -> 0 <= entry3 var x k k).
Proof.
  intros H Hb. rewrite (covariance_closed_form val val a b i i false H H Hb).
  eexists. split; [reflexivity |]. split.
  - intros x k l Hx Hk Hl. rewrite !entry3_tabulate3 by assumption.
    f_equal. apply map_ext. intros y. ring.
  - intros x k Hx Hk. rewrite entry3_tabulate3 by assumption.
    unfold mean. rewrite length_map. apply Rmult_le_pos.
    + apply sum_nonneg. intros y. rewrite Rminus_0_r. apply Rle_0_sqr.
    + apply Rlt_le, Rinv_0_lt_compat, INR_length_seq_pos, Hb.
Qed.

Lemma covariance_with_itself_symmetric_witness :
  exists var,
    _compute_covariance [[[1; 2]; [3; 5]]] [[[1; 2]; [3; 5]]] false = inr var
    /\ (forall x k l, (x < 1)%nat -> (k < 2)%nat -> (l < 2)%nat ->
                      entry3 var x k l = entry3 var x l k)
    /\ (forall x k, (x < 1)%nat -> (k < 2)%nat -> 0 <= entry3 var x k k).
Proof.
  apply (covariance_with_itself_symmetric [[[1; 2]; [3; 5]]] 1 2 2).
  - reflexivity.
  - lia.
Defined.

(** In exact arithmetic, when every component of [val_1] sums to zero over
    the samples of each batch row, subtracting the sample mean from [val_2]
    changes nothing: the covariance with and without
    [subtract_mean_from_val_2] is the same. Rounding is not modelled. *)
Theorem covariance_mean_subtraction_irrelevant (val_1 val_2 : ten3) (a b i j : nat) :
  shape3_is val_1 a b i = true -> shape3_is val_2 a b j = true -> (1 <= b)%nat ->
  (forall x k, (x < a)%nat -> (k < i)%nat ->
               sum (map (fun y => entry3 val_1 x y k) (seq 0 b)) = 0) ->
  _compute_covariance val_1 val_2 true = _compute_covariance val_1 val_2 false.
Proof.
  intros H1 H2 Hb Hzero.
  rewrite (covariance_closed_form val_1 val_2 a b i j true H1 H2 Hb).
  rewrite (covariance_closed_form val_1 val_2 a b i j false H1 H2 Hb).
  f_equal. apply tabulate3_ext. intros x k l Hx Hk Hl.
  unfold mean at 1 3. rewrite !length_map. f_equal.
  rewrite !sum_product_centred, (Hzero x k Hx Hk). ring.
Qed.

Lemma covariance_mean_subtraction_irrelevant_witness :
  _compute_covariance [[[1]; [-1]]] [[[4; 7]; [2; 9]]] true
  = _compute_covariance [[[1]; [-1]]] [[[4; 7]; [2; 9]]] false.
Proof.
  apply (covariance_mean_subtraction_irrelevant [[[1]; [-1]]] [[[4; 7]; [2; 9]]] 1 2 1 2).
  - reflexivity.
  - reflexivity.
  - lia.
  - intros [| x] [| k] Hx Hk; try lia. unfold entry3, entry, sum. cbn. lra.
Defined.

(** In exact arithmetic, a [val_1] that does not vary over the samples has
    covariance zero with every [val_2] once the sample mean of [val_2] is
    subtracted. Rounding is not modelled. *)
Theorem covariance_of_constant_is_zero (val_1 val_2 : ten3) (a b i j : nat) :
  shape3_is val_1 a b i = true -> shape3_is val_2 a b j = true -> (1 <= b)%nat ->
  (forall x y k, (x < a)%nat -> (y < b)%nat -> (k < i)%nat ->
                 entry3 val_1 x y k = entry3 val_1 x 0 k) ->
  _compute_covariance val_1 val_2 true = inr (tabulate3 a i j (fun _ _ _ => 0)).
Proof.
  intros H1 H2 Hb Hconst.
  rewrite (covariance_closed_form val_1 val_2 a b i j true H1 H2 Hb).
  f_equal. apply tabulate3_ext. intros x k l Hx Hk Hl.
  rewrite (map_ext_in _ (fun y => entry3 val_1 x 0 k
                                  * (entry3 val_2 x y l
                                     - mean (map (fun y' => entry3 val_2 x y' l) (seq 0 b)))))
    by (intros y Hy; apply in_seq in Hy; rewrite (Hconst x y k) by lia; reflexivity).
  set (c := entry3 val_1 x 0 k). set (w := fun y => entry3 val_2 x y l).
  change (mean (map (fun y => c * (w y - mean (map w (seq 0 b)))) (seq 0 b)) = 0).
  unfold mean at 1. rewrite sum_map_mult_l, sum_centred, length_map.
  unfold mean. rewrite length_map.
  pose proof (INR_length_seq_pos b Hb) as Hpos.
  field. lra.
Qed.

Lemma covariance_of_constant_is_zero_witness :
  _compute_covariance [[[3]; [3]]] [[[4; 7]; [2; 9]]] true
  = inr (tabulate3 1 1 2 (fun _ _ _ => 0)).
Proof.
  apply (covariance_of_constant_is_zero [[[3]; [3]]] [[[4; 7]; [2; 9]]] 1 2 1 2).
  - reflexivity.
  - reflexivity.
  - lia.
  - intros [| x] [| [| y]] [| k] Hx Hy Hk; try lia; reflexivity.
Defined.

End CovarianceFacts.

Lemma ForwardKL_init_stores_arguments_witness :
  exists dict',
    ForwardKL.__init__ (VInst C_ForwardKL [("joint", VObj "old")]) VNone
                       (VObj "posterior") (VBool true) []
    = (inr (VInst C_ForwardKL dict'), [])
    /\ assoc "joint" dict' = Some VNone
    /\ assoc "posterior_samples" dict' = Some (VObj "posterior")
    /\ assoc "use_reparameterisation" dict' = Some (VBool true)
    /\ (forall name,
          name <> "joint" -> name <> "posterior_samples" ->
          name <> "use_reparameterisation" ->
          assoc name dict' = assoc name [("joint", VObj "old")]).
Proof.
  apply (ForwardKL_init_stores_arguments
           C_ForwardKL [("joint", VObj "old")] VNone (VObj "posterior") (VBool true) []).
Defined.

(** * The claims that fail on the constructor and on the stratified evaluator *)

(** C3: a method string is never rejected as a configuration error. For
    every string, inside or outside ['elbo'], ['selbo'], the constructor stops
    on [self._methods] with an [AttributeError], which is no [ValueError], and
    construct-then-eval ends there too. What holds of the claim is that
    nothing has been sampled or called by then: the log is unchanged. *)
Theorem ReverseKL_unknown_method_meets_attribute_error
        (W : world) (jointdist use_reparameterisation : value) (method : string)
        (approx x num_samples : value) (l : log) :
  ReverseKL.new W [jointdist; use_reparameterisation; VStr method] [] l
  = (inl (AttributeError "_methods"), l)
  /\ ReverseKL.new W [jointdist] [("method", VStr method)] l
     = (inl (AttributeError "_methods"), l)
  /\ ReverseKL.new_then_eval W jointdist use_reparameterisation (VStr method)
                             approx x num_samples l
     = (inl (AttributeError "_methods"), l)
  /\ (forall msg, AttributeError "_methods" <> ValueError msg).
Proof.
  split; [| split; [| split]].
  - reflexivity.
  - reflexivity.
  - unfold ReverseKL.new_then_eval, bind. reflexivity.
  - intros msg. discriminate.
Qed.

(** C6: the stratified evaluator returns no gradient. Called with any
    approximating distribution it ends in an exception; with one that offers
    every operation it draws the base samples, transforms them, takes the
    log density and stops on the [NameError] of [self] (line 163), so that
    [coefficients] is never asked for and line 176 is never reached. *)
Theorem selbo_reparameterisation_returns_no_gradient
        (W : world) (approx phi x num_samples : value) :
  never_returns (ReverseKL._eval_selbo_reparameterisation W approx phi x num_samples)
  /\ ReverseKL._eval_selbo_reparameterisation
       full_world (VObj "approx") (VObj "phi") (VObj "x") (VInt 10) []
     = (inl (NameError "self"),
        [ Call "approx" "sample_base" [VInt 10];
          Call "approx" "transform" [VObj "approx.sample_base"; VObj "phi"];
          Call "approx" "logprob" [VObj "approx.transform"; VObj "phi"] ])
  /\ existsb (fun c => operation c =? "coefficients")
             (snd (ReverseKL._eval_selbo_reparameterisation
                     full_world (VObj "approx") (VObj "phi") (VObj "x") (VInt 10) []))
     = false.
Proof.
  split; [| split].
  - unfold ReverseKL._eval_selbo_reparameterisation.
    do 3 (apply never_returns_bind_r; intros ?). apply never_returns_raise.
  - reflexivity.
  - reflexivity.
Qed.

(** C8, amended. On arrays of shape [(num_batch, num_samples)] with at least
    one sample:
    - in exact arithmetic the entry [(i, j)] of the result is the sample times
      [exp(lw[i,j]) / sum_k exp(lw[i,k])] with [lw = joint_logprob -
      approx_logprob]: the difference is taken in this direction, the weights
      are normalised by their per-batch sum, and the per-batch maximum that
      is subtracted before exponentiating cancels;
    - with equal log weights every returned entry is the sample at that place
      divided by [num_samples]: the weighted samples are returned one by one,
      not summed to the sample mean;
    - the maximum is taken: log weights with batch rows and no samples are
      refused by it. *)
Theorem importance_samples_weighting
        (samples approx_logprob joint_logprob log_weight : mat) (r c : nat) :
  shape_is samples r c = true -> shape_is approx_logprob r c = true ->
  shape_is joint_logprob r c = true -> shape_is log_weight r c = true ->
  (1 <= c)%nat ->
  _compute_importance_samples samples approx_logprob joint_logprob
  = inr (tabulate r c (fun i j =>
           entry samples i j
           * (exp (entry joint_logprob i j - entry approx_logprob i j)
              / sum (map (fun k => exp (entry joint_logprob i k - entry approx_logprob i k))
                         (seq 0 c)))))
  /\ _compute_importance_samples samples log_weight log_weight
     = inr (map (map (fun x => x / INR c)) samples)
  /\ (forall n,
        _compute_importance_samples samples (tabulate (S n) 0 (fun _ _ => 0))
                                    (tabulate (S n) 0 (fun _ _ => 0))
        = inl (ValueError "zero-size array to reduction operation maximum")).
Proof.
  intros Hs Ha Hb Hw Hc. split; [| split].
  - now apply importance_samples_closed_form.
  - now apply (importance_samples_uniform _ _ r c).
  - intros n. unfold _compute_importance_samples.
    rewrite (broadcast_same Rminus _ _ (S n) 0
               (shape_is_tabulate (S n) 0 _) (shape_is_tabulate (S n) 0 _)).
    reflexivity.
Qed.

Lemma importance_samples_weighting_witness :
  _compute_importance_samples [[1; 3]; [2; 6]] [[0; 1]; [5; 2]] [[3; 1]; [0; 2]]
  = inr (tabulate 2 2 (fun i j =>
           entry [[1; 3]; [2; 6]] i j
           * (exp (entry [[3; 1]; [0; 2]] i j - entry [[0; 1]; [5; 2]] i j)
              / sum (map (fun k => exp (entry [[3; 1]; [0; 2]] i k
                                        - entry [[0; 1]; [5; 2]] i k))
                         (seq 0 2)))))
  /\ _compute_importance_samples [[1; 3]; [2; 6]] [[7; 1]; [4; 4]] [[7; 1]; [4; 4]]
     = inr (map (map (fun x => x / INR 2)) [[1; 3]; [2; 6]])
  /\ (forall n,
        _compute_importance_samples [[1; 3]; [2; 6]] (tabulate (S n) 0 (fun _ _ => 0))
                                    (tabulate (S n) 0 (fun _ _ => 0))
        = inl (ValueError "zero-size array to reduction operation maximum")).
Proof.
  apply (importance_samples_weighting
           [[1; 3]; [2; 6]] [[0; 1]; [5; 2]] [[3; 1]; [0; 2]] [[7; 1]; [4; 4]] 2 2).
  - reflexivity.
  - reflexivity.
  - reflexivity.
  - reflexivity.
  - lia.
Defined.
